(** * orix: masked property store and ANG reader/writer

    Shallow embedding of
    - [orix/crystal_map/crystal_map_properties.py] (class
      [CrystalMapProperties]), and
    - [orix/io/plugins/ang.py] (reader, column resolver, header parser,
      writer),
    followed by the properties established about them.

    Conventions of the embedding.
    - A Python exception is a value of [exn]; a call that may raise
      returns a [result].  A method that mutates its object before raising
      returns the mutated object together with its [outcome].
    - A one-dimensional numpy array is a [list]; point ids are [nat].
    - float64 values are kept abstract (class [Float64]): only the
      operations the code applies to them are named.  [Q] is the instance
      used to run the definitions on concrete inputs. *)

From Stdlib Require Import ZArith QArith Qround Qabs String Ascii List Lia Bool.
From Stdlib Require Import DecimalString DecimalNat DecimalFacts.
From stdpp Require Import gmap strings list fin_maps.

Local Open Scope string_scope.
Local Open Scope list_scope.
Local Open Scope nat_scope.

(** ** Exceptions and results *)

Inductive exn : Type :=
| IndexError
| KeyError
| ValueError
| TypeError.

Inductive result (A : Type) : Type :=
| Ok (a : A)
| Raise (e : exn).
Arguments Ok {A} a.
Arguments Raise {A} e.

Definition rbind {A B : Type} (r : result A) (k : A -> result B) : result B :=
  match r with
  | Ok a => k a
  | Raise e => Raise e
  end.

Notation "'let*' x ':=' r 'in' k" := (rbind r (fun x => k))
  (at level 10, x pattern, r at level 100, k at level 200).

(** Outcome of a method run for its effect. *)
Inductive outcome : Type :=
| Done
| Raised (e : exn).

(** ** Python strings *)

Module Str.

Definition code (c : ascii) : nat := nat_of_ascii c.

Definition in_range (lo hi : nat) (c : ascii) : bool :=
  Nat.leb lo (code c) && Nat.leb (code c) hi.

Definition is_digit (c : ascii) : bool := in_range 48 57 c.

Definition one_of (set : string) (c : ascii) : bool :=
  existsb (Ascii.eqb c) (list_ascii_of_string set).

(** The characters [str.rstrip()] removes: tab, line feed, vertical tab,
    form feed, carriage return, the four separators 28..31, and space. *)
Definition is_whitespace (c : ascii) : bool :=
  in_range 9 13 c || in_range 28 32 c.

(** [needle in s]. *)
Fixpoint contains (needle s : string) : bool :=
  String.prefix needle s
  || match s with
     | EmptyString => false
     | String _ rest => contains needle rest
     end.

(** [s.lstrip(chars)] for the characters satisfying [p]. *)
Fixpoint lstrip (p : ascii -> bool) (s : string) : string :=
  match s with
  | EmptyString => EmptyString
  | String c rest => if p c then lstrip p rest else s
  end.

(** [s.rstrip(chars)]. *)
Fixpoint rstrip (p : ascii -> bool) (s : string) : string :=
  match s with
  | EmptyString => EmptyString
  | String c rest =>
      match rstrip p rest with
      | EmptyString => if p c then EmptyString else String c EmptyString
      | rest' => String c rest'
      end
  end.

(** [re.split] on a one-character class: the pieces between separators,
    empty pieces included. *)
Fixpoint split (sep : ascii -> bool) (s : string) : list string :=
  match s with
  | EmptyString => [EmptyString]
  | String c rest =>
      if sep c then EmptyString :: split sep rest
      else match split sep rest with
           | piece :: pieces => String c piece :: pieces
           | [] => [String c EmptyString]
           end
  end.

Definition nonempty (s : string) : bool :=
  match s with
  | EmptyString => false
  | String _ _ => true
  end.

(** [sep.join(l)]. *)
Definition join (sep : string) (l : list string) : string := String.concat sep l.

(** [str(n)] for an [int]. *)
Definition of_nat (n : nat) : string :=
  DecimalString.NilZero.string_of_uint (Nat.to_uint n).

Definition of_Z (z : Z) : string :=
  DecimalString.NilZero.string_of_int (Z.to_int z).

(** [int(s)] in base ten on an ASCII string: surrounding whitespace is
    dropped, a sign may lead, and single underscores may stand between
    digits. *)
Fixpoint digits (acc : Z) (after_digit : bool) (s : string) : option Z :=
  match s with
  | EmptyString => if after_digit then Some acc else None
  | String c rest =>
      if is_digit c then
        digits (10 * acc + Z.of_nat (code c - 48)) true rest
      else if Ascii.eqb c "_" && after_digit then digits acc false rest
      else None
  end.

Definition to_int (s : string) : result Z :=
  let body := rstrip is_whitespace (lstrip is_whitespace s) in
  let signed :=
    match body with
    | String "-" rest => option_map Z.opp (digits 0 false rest)
    | String "+" rest => digits 0 false rest
    | _ => digits 0 false body
    end in
  match signed with
  | Some z => Ok z
  | None => Raise ValueError
  end.

End Str.

(** ** Regular expressions, as far as [re.search] is used *)

Module Regex.

Inductive re : Type :=
| Void                          (* matches nothing *)
| Eps                           (* the empty string *)
| Class (p : ascii -> bool)     (* one character of a class *)
| Cat (r1 r2 : re)
| Alt (r1 r2 : re)
| Star (r : re).

Definition Plus (r : re) : re := Cat r (Star r).

Fixpoint Lit (s : string) : re :=
  match s with
  | EmptyString => Eps
  | String c rest => Cat (Class (Ascii.eqb c)) (Lit rest)
  end.

Fixpoint nullable (r : re) : bool :=
  match r with
  | Void => false
  | Eps => true
  | Class _ => false
  | Cat r1 r2 => nullable r1 && nullable r2
  | Alt r1 r2 => nullable r1 || nullable r2
  | Star _ => true
  end.

(** The expression matching the rest of a match that starts with [c]. *)
Fixpoint deriv (c : ascii) (r : re) : re :=
  match r with
  | Void => Void
  | Eps => Void
  | Class p => if p c then Eps else Void
  | Cat r1 r2 =>
      if nullable r1 then Alt (Cat (deriv c r1) r2) (deriv c r2)
      else Cat (deriv c r1) r2
  | Alt r1 r2 => Alt (deriv c r1) (deriv c r2)
  | Star r1 => Cat (deriv c r1) (Star r1)
  end.

(** Some prefix of [s] matches [r]. *)
Fixpoint matches_prefix (r : re) (s : string) : bool :=
  nullable r
  || match s with
     | EmptyString => false
     | String c rest => matches_prefix (deriv c r) rest
     end.

(** [re.search(r, s)] finds a match: some substring of [s] matches. *)
Fixpoint search (r : re) (s : string) : bool :=
  matches_prefix r s
  || match s with
     | EmptyString => false
     | String _ rest => search r rest
     end.

(** The classes of the patterns in [_get_phases_from_header]. *)
Definition tab : ascii := "009"%char.
Definition blank (c : ascii) : bool :=                           (* [ \t] *)
  Ascii.eqb c " " || Ascii.eqb c tab.
Definition digit_or_space (c : ascii) : bool :=                  (* [0-9 ] *)
  Str.is_digit c || Ascii.eqb c " ".
Definition word (c : ascii) : bool :=                            (* [A-z0-9 ] *)
  Str.in_range 65 122 c || Str.is_digit c || Ascii.eqb c " ".
Definition blank_or_plus (c : ascii) : bool :=                   (* [ \t+] *)
  blank c || Ascii.eqb c "+".
Definition dot (c : ascii) : bool := negb (Ascii.eqb c "010").   (* . *)

End Regex.

(** ** float64, as far as the code looks at it *)

Class Float64 (F : Type) : Type := {
  f_of_Z : Z -> F;             (* an integer converted to float *)
  f_trunc : F -> Z;            (* astype(int): truncation toward zero *)
  f_floor : F -> Z;            (* int(x // 1) *)
  f_eqb : F -> F -> bool;      (* x == y *)
  f_leb : F -> F -> bool;      (* x <= y *)
  f_mul : F -> F -> F;         (* x * y *)
  f_single : F -> F;           (* stored in a float32 array and read back *)
  f_parse : string -> result F;  (* float(s) *)
  f_fixed : nat -> F -> string   (* "%.<d>f" % x *)
}.

(** Exact rationals: every operation is the mathematical one and nothing
    is rounded, except by [f_fixed].  [f_parse] reads plain decimal
    notation.  On the inputs used below (small integers, halves, numbers
    with few decimals that are only parsed, compared and printed) float64
    behaves the same. *)
Module QFloat.

Definition Qtrunc (q : Q) : Z := Z.quot (Qnum q) (Zpos (Qden q)).

(** Digits before and after the point, with the number of the latter. *)
Fixpoint decimal (acc : Z) (places : option nat) (seen : bool) (s : string)
  : option (Z * nat) :=
  match s with
  | EmptyString =>
      if seen then Some (acc, default 0 places) else None
  | String c rest =>
      if Str.is_digit c then
        decimal (10 * acc + Z.of_nat (Str.code c - 48)) (S <$> places) true rest
      else if Ascii.eqb c "." then
        match places with
        | None => decimal acc (Some 0) seen rest
        | Some _ => None
        end
      else None
  end.

Definition unsigned (s : string) : option Q :=
  match decimal 0 None false s with
  | Some (n, k) => Some (Qred (Qmake n (Z.to_pos (10 ^ Z.of_nat k))))
  | None => None
  end.

Definition parse (s : string) : result Q :=
  let q :=
    match s with
    | String "-" rest => Qopp <$> unsigned rest
    | String "+" rest => unsigned rest
    | _ => unsigned s
    end in
  match q with
  | Some q => Ok q
  | None => Raise ValueError
  end.

(** Nearest integer, ties to the even one. *)
Definition round_half_even (q : Q) : Z :=
  let lo := Qfloor q in
  match Qcompare (q - inject_Z lo) (1 # 2) with
  | Lt => lo
  | Gt => (lo + 1)%Z
  | Eq => if Z.even lo then lo else (lo + 1)%Z
  end.

Fixpoint zero_pad (n : nat) (s : string) : string :=
  match n with
  | O => s
  | S n' => zero_pad n' (String "0" s)
  end.

(** Fixed notation with [d] decimals. *)
Definition fixed (d : nat) (q : Q) : string :=
  let scaled := round_half_even (Qabs q * inject_Z (10 ^ Z.of_nat d)) in
  let ds := Str.of_nat (Z.to_nat scaled) in
  let ds := zero_pad (S d - String.length ds) ds in
  let whole := String.substring 0 (String.length ds - d) ds in
  let part := String.substring (String.length ds - d) d ds in
  (if Qlt_le_dec q 0 then "-" else "")
  +:+ whole +:+ (if Nat.eqb d 0 then "" else "." +:+ part).

End QFloat.

#[export] Instance Float64_Q : Float64 Q := {
  f_of_Z := inject_Z;
  f_trunc := QFloat.Qtrunc;
  f_floor := Qfloor;
  f_eqb := Qeq_bool;
  f_leb := Qle_bool;
  f_mul := Qmult;
  f_single := fun q => q;
  f_parse := QFloat.parse;
  f_fixed := QFloat.fixed
}.

(** ** numpy operations on one-dimensional arrays *)

Module Numpy.

Section Arrays.
Context {A : Type}.

(** [np.where(mask)[0]]: the positions holding [True], ascending.
    [where_from k] numbers the first position [k]. *)
Fixpoint where_from (k : nat) (mask : list bool) : list nat :=
  match mask with
  | [] => []
  | b :: m => if b then k :: where_from (S k) m else where_from (S k) m
  end.

Definition where_ (mask : list bool) : list nat := where_from 0 mask.

(** [a[mask]] for a boolean [mask] of the length of [a]. *)
Fixpoint select (mask : list bool) (a : list A) : list A :=
  match mask, a with
  | b :: m, x :: a' => if b then x :: select m a' else select m a'
  | _, _ => []
  end.

Definition getitem_mask (a : list A) (mask : list bool) : result (list A) :=
  if Nat.eqb (length mask) (length a) then Ok (select mask a)
  else Raise IndexError.

(** The element-wise writes of [a[ids] = vs] once [vs] has the shape of
    [ids]: left to right, so that a repeated id keeps the last value. *)
Fixpoint put (a : list A) (ids : list nat) (vs : list A) : list A :=
  match ids, vs with
  | i :: ids', v :: vs' => put (<[i:=v]> a) ids' vs'
  | _, _ => a
  end.

(** Broadcasting of the right-hand side to [n] entries: a scalar and a
    one-entry sequence are repeated, a sequence of [n] entries is taken
    as it is, anything else does not broadcast. *)
Definition broadcast (n : nat) (vs : list A) : result (list A) :=
  if Nat.eqb (length vs) n then Ok vs
  else match vs with
       | [v] => Ok (replicate n v)
       | _ => Raise ValueError
       end.

(** [a[ids] = vs] with an integer index array.  An id outside the array
    raises [IndexError], a right-hand side that does not broadcast
    raises [ValueError]. *)
Definition setitem_ids (a : list A) (ids : list nat) (vs : list A)
  : result (list A) :=
  if forallb (fun i => Nat.ltb i (length a)) ids then
    let* vs' := broadcast (length ids) vs in
    Ok (put a ids vs')
  else Raise IndexError.
End Arrays.

End Numpy.

(** ** [CrystalMapProperties] *)

Module Props.
Import Numpy.

Section Store.
Context {F : Type} `{Float64 F}.

(** Element types of the arrays and the values of these types.  Of the
    types a value can have, the two numeric ones are kept: [int] and
    [float]. *)
Inductive dtype : Type := DInt | DFloat.

Inductive scalar : Type :=
| SInt (z : Z)
| SFloat (x : F).

Definition type_of (s : scalar) : dtype :=
  match s with
  | SInt _ => DInt
  | SFloat _ => DFloat
  end.

(** Conversion of one element, as [ndarray.astype] and element
    assignment do it. *)
Definition cast (t : dtype) (s : scalar) : scalar :=
  match t, s with
  | DInt, SInt z => SInt z
  | DInt, SFloat x => SInt (f_trunc x)
  | DFloat, SInt z => SFloat (f_of_Z z)
  | DFloat, SFloat x => SFloat x
  end.

Definition astype (t : dtype) (a : list scalar) : list scalar :=
  map (cast t) a.

(** [np.zeros(n)]: float64 zeros. *)
Definition zeros (n : nat) : list scalar := replicate n (SFloat (f_of_Z 0)).

(** What is assigned: one number, or a sequence of numbers (a list or an
    array). *)
Inductive pyvalue : Type :=
| PScalar (s : scalar)
| PSeq (l : list scalar).

(** [type(value[0])] if [value] is iterable, [type(value)] otherwise. *)
Definition value_type (value : pyvalue) : result dtype :=
  match value with
  | PScalar s => Ok (type_of s)
  | PSeq [] => Raise IndexError
  | PSeq (s :: _) => Ok (type_of s)
  end.

Definition entries (value : pyvalue) : list scalar :=
  match value with
  | PScalar s => [s]
  | PSeq l => l
  end.

(** The object: the underlying [dict] and the two attributes. *)
Record store : Type := {
  dict : gmap string (list scalar);
  id : list nat;
  is_in_data : list bool
}.

Definition with_dict (s : store) (d : gmap string (list scalar)) : store :=
  {| dict := d; id := id s; is_in_data := is_in_data s |}.

(** [dict.setdefault(key, default)]. *)
Definition setdefault (s : store) (key : string) (dflt : list scalar)
  : list scalar * store :=
  match dict s !! key with
  | Some a => (a, s)
  | None => (dflt, with_dict s (<[key:=dflt]> (dict s)))
  end.

(** [CrystalMapProperties.__setitem__]. *)
Definition __setitem__ (s : store) (key : string) (value : pyvalue)
  : store * outcome :=
  let '(array, s1) := setdefault s key (zeros (length (is_in_data s))) in
  match value_type value with
  | Raise e => (s1, Raised e)
  | Ok value_type =>
      let array := astype value_type array in
      match setitem_ids array (id s1) (map (cast value_type) (entries value)) with
      | Raise e => (s1, Raised e)
      | Ok array => (with_dict s1 (<[key:=array]> (dict s1)), Done)
      end
  end.

(** [CrystalMapProperties.__getitem__]. *)
Definition __getitem__ (s : store) (item : string) : result (list scalar) :=
  match dict s !! item with
  | None => Raise KeyError
  | Some array => getitem_mask array (is_in_data s)
  end.

(** The state the owning crystal map keeps the object in: [id] lists the
    points in the data, ascending, and the array of [key], if there is
    one, has an entry for every point. *)
Definition ids_follow_mask (s : store) : Prop :=
  id s = where_ (is_in_data s).

Definition full_size (s : store) (key : string) : Prop :=
  forall a, dict s !! key = Some a -> length a = length (is_in_data s).




(** The array a write starts from: the stored one, or the new one. *)
Definition array_before (s : store) (key : string) : list scalar :=
  default (zeros (length (is_in_data s))) (dict s !! key).

(** [CrystalMapProperties.__init__] for a [dictionary] that is a [dict]
    (with [None] the debug message, which asks for [dictionary.keys()],
    raises before anything is set).  The arrays go into the underlying
    [dict] as they are; without [is_in_data] every point is in the data:
    [np.ones(id.size, dtype=bool)]. *)
Definition __init__ (dictionary : gmap string (list scalar)) (id : list nat)
  (is_in_data : option (list bool)) : store :=
  {| dict := dictionary;
     id := id;
     is_in_data :=
       match is_in_data with
       | None => replicate (length id) true
       | Some mask => mask
       end |}.
End Store.

Arguments scalar F : clear implicits.
Arguments pyvalue F : clear implicits.
Arguments store F : clear implicits.

End Props.

(** ** [orix/io/plugins/ang.py]: the reader *)

Module Ang.
Import Numpy.

(** [_get_header]: the leading lines that start with '#', each without
    its trailing whitespace.  [file] is the list of the lines
    [file.readline()] returns one after the other. *)
Fixpoint _get_header (file : list string) : list string :=
  match file with
  | [] => []
  | line :: rest =>
      if String.prefix "#" line
      then Str.rstrip Str.is_whitespace line :: _get_header rest
      else []
  end.

Inductive vendor : Type := tsl | emsoft | astar | unknown.

Definition vendor_eqb (v w : vendor) : bool :=
  match v, w with
  | tsl, tsl | emsoft, emsoft | astar, astar | unknown, unknown => true
  | _, _ => false
  end.

(** The footprints, in the order of the dictionary. *)
Definition vendor_footprint : list (vendor * string) :=
  [(emsoft, "EMsoft"); (astar, "ACOM")].

(** The inner loop: the first line containing [footprint] sets the vendor
    to [name] and ends the scan of the lines. *)
Fixpoint scan_footprint (name : vendor) (footprint : string)
  (header : list string) (current : vendor) : vendor :=
  match header with
  | [] => current
  | line :: rest =>
      if Str.contains footprint line then name
      else scan_footprint name footprint rest current
  end.

(** The outer loop, over every footprint, starting from "tsl". *)
Definition detect_vendor (header : list string) : vendor :=
  fold_left (fun current '(name, footprint) =>
               scan_footprint name footprint header current)
            vendor_footprint tsl.

Definition column_names (v : vendor) : list string :=
  match v with
  | unknown =>
      ["euler1"; "euler2"; "euler3"; "x"; "y"; "unknown1"; "unknown2";
       "phase_id"]
  | tsl =>
      ["euler1"; "euler2"; "euler3"; "x"; "y"; "iq"; "ci"; "phase_id";
       "unknown1"; "fit"; "unknown2"; "unknown3"; "unknown4"; "unknown5"]
  | emsoft =>
      ["euler1"; "euler2"; "euler3"; "x"; "y"; "iq"; "dp"; "phase_id"]
  | astar =>
      ["euler1"; "euler2"; "euler3"; "x"; "y"; "ind"; "rel"; "phase_id";
       "relx100"]
  end.

(** The names appended for [i] in [range(n)]. *)
Definition extra_columns (n : nat) : list string :=
  map (fun i => "unknown" +:+ Str.of_nat (i + 3)) (seq 0 n).

(** [_get_vendor_columns]; the warning is not part of the result. *)
Definition _get_vendor_columns (header : list string) (n_cols_file : nat)
  : vendor * list string :=
  let vendor := detect_vendor header in
  let n_cols_expected := length (column_names vendor) in
  if negb (Nat.eqb n_cols_file n_cols_expected) then
    let n_cols_unknown := length (column_names unknown) in
    if Nat.ltb n_cols_unknown n_cols_file then
      (unknown, column_names unknown ++ extra_columns (n_cols_file - n_cols_unknown))
    else (unknown, column_names unknown)
  else (vendor, column_names vendor).

(** [[f(x) for x in l]] with an [f] that may raise. *)
Fixpoint traverse {A B : Type} (f : A -> result B) (l : list A)
  : result (list B) :=
  match l with
  | [] => Ok []
  | x :: l' =>
      let* y := f x in
      let* ys := traverse f l' in
      Ok (y :: ys)
  end.

(** A [for] loop whose body may raise. *)
Fixpoint for_each {A S : Type} (body : A -> S -> result S) (l : list A)
  (st : S) : result S :=
  match l with
  | [] => Ok st
  | x :: l' =>
      let* st' := body x st in
      for_each body l' st'
  end.

(** [range(a, b)]. *)
Definition range (a b : Z) : list Z :=
  map (fun i => (a + Z.of_nat i)%Z) (seq 0 (Z.to_nat (b - a))).

(** [max(l)] of a list of integers. *)
Definition max_int (l : list Z) : result Z :=
  match l with
  | [] => Raise ValueError
  | x :: l' => Ok (fold_left Z.max l' x)
  end.

(** [l[-1]]. *)
Definition last_item {A : Type} (l : list A) : result A :=
  match last l with
  | Some x => Ok x
  | None => Raise IndexError
  end.

Section Phases.
Context {F : Type} `{Float64 F}.
Import Regex.

Inductive key : Type :=
| k_id | k_name | k_formula | k_point_group | k_lattice_constants.

(** [label([ \t]+)(cls+)]. *)
Definition labelled (label : string) (cls : ascii -> bool) : re :=
  Cat (Lit label) (Cat (Plus (Class blank)) (Plus (Class cls))).

(** The patterns, in the order of the dictionary. *)
Definition regexps : list (key * re) :=
  [(k_id, labelled "# Phase" digit_or_space);
   (k_name, labelled "# MaterialName" word);
   (k_formula, labelled "# Formula" word);
   (k_point_group, labelled "# Symmetry" word);
   (k_lattice_constants,
     Cat (Lit "# LatticeConstants")
         (Cat (Class blank_or_plus) (Star (Class dot))))].

(** The dictionary [phases] of lists. *)
Record phases_dict : Type := {
  phases_name : list string;
  phases_formula : list string;
  phases_point_group : list string;
  phases_lattice_constants : list (list F);
  phases_id : list string
}.

Definition no_phases : phases_dict :=
  {| phases_name := []; phases_formula := []; phases_point_group := [];
     phases_lattice_constants := []; phases_id := [] |}.

(** [list(filter(None, re.split("[ \t]", line.lstrip("# ").rstrip(" "))))]. *)
Definition tokens (line : string) : list string :=
  List.filter Str.nonempty
    (Str.split blank
       (Str.rstrip (Ascii.eqb " ") (Str.lstrip (Str.one_of "# ") line))).

(** The body of [if match:]. *)
Definition record_match (k : key) (line : string) (p : phases_dict)
  : result phases_dict :=
  let group := tokens line in
  match k with
  | k_name =>
      let group := Str.join " " (drop 1 group) in
      Ok {| phases_name := phases_name p ++ [group];
            phases_formula := phases_formula p;
            phases_point_group := phases_point_group p;
            phases_lattice_constants := phases_lattice_constants p;
            phases_id := phases_id p |}
  | k_lattice_constants =>
      let* group := traverse f_parse (drop 1 group) in
      Ok {| phases_name := phases_name p;
            phases_formula := phases_formula p;
            phases_point_group := phases_point_group p;
            phases_lattice_constants := phases_lattice_constants p ++ [group];
            phases_id := phases_id p |}
  | k_formula =>
      let* group := last_item group in
      Ok {| phases_name := phases_name p;
            phases_formula := phases_formula p ++ [group];
            phases_point_group := phases_point_group p;
            phases_lattice_constants := phases_lattice_constants p;
            phases_id := phases_id p |}
  | k_point_group =>
      let* group := last_item group in
      Ok {| phases_name := phases_name p;
            phases_formula := phases_formula p;
            phases_point_group := phases_point_group p ++ [group];
            phases_lattice_constants := phases_lattice_constants p;
            phases_id := phases_id p |}
  | k_id =>
      let* group := last_item group in
      Ok {| phases_name := phases_name p;
            phases_formula := phases_formula p;
            phases_point_group := phases_point_group p;
            phases_lattice_constants := phases_lattice_constants p;
            phases_id := phases_id p ++ [group] |}
  end.

(** The two nested loops over the lines and the patterns. *)
Definition scan_line (line : string) (p : phases_dict) : result phases_dict :=
  for_each (fun '(k, exp) p =>
              if search exp line then record_match k line p else Ok p)
           regexps p.

Definition collect_phases (header : list string) : result phases_dict :=
  for_each scan_line header no_phases.

(** The completion of the phase ids found, for [n_phases] phases. *)
Definition complete_ids (phase_ids : list Z) (n_phases : nat)
  : result (list Z) :=
  if Nat.eqb (length phase_ids) 0 then
    Ok (phase_ids ++ range 0 (Z.of_nat n_phases))
  else if (Z.of_nat n_phases - Z.of_nat (length phase_ids) >? 0)%Z
          && negb (Nat.eqb (length phase_ids) 0) then
    let* m := max_int phase_ids in
    let next_id := (m + 1)%Z in
    let n_left := (Z.of_nat n_phases - Z.of_nat (length phase_ids))%Z in
    Ok (phase_ids ++ range next_id (next_id + n_left))
  else Ok phase_ids.

(** The choice between the formulas and the material names. *)
Definition display_names (p : phases_dict) : list string :=
  let names := phases_formula p in
  if Nat.eqb (length names) 0
     || existsb (fun i => negb (String.eqb i "")) names
  then phases_name p
  else names.

(** [_get_phases_from_header]: ids, names, point groups and lattice
    constants. *)
Definition _get_phases_from_header (header : list string)
  : result (list Z * list string * list string * list (list F)) :=
  let* p := collect_phases header in
  let names := display_names p in
  let* phase_ids := traverse Str.to_int (phases_id p) in
  let n_phases := length (phases_name p) in
  let* phase_ids := complete_ids phase_ids n_phases in
  Ok (phase_ids, names, phases_point_group p, phases_lattice_constants p).
End Phases.

Arguments phases_dict F : clear implicits.

Section Reader.
Context {F : Type} `{Float64 F}.

(** The array [np.loadtxt] returns: [n_cols] numbers in every row. *)
Record table : Type := {
  n_cols : nat;
  rows : list (list F)
}.

(** [file_data[:, column]]. *)
Definition column (file_data : table) (j : nat) : result (list F) :=
  if Nat.ltb j (n_cols file_data)
  then Ok (map (fun row => nth j row (f_of_Z 0)) (rows file_data))
  else Raise IndexError.

(** [data_dict] while it is filled: the six entries that start as [None]
    and the dictionary under "prop".  (No column is ever named "prop".) *)
Record data_dict : Type := {
  entries : gmap string (option (list F));
  prop : gmap string (list F)
}.

Definition empty_data_dict : data_dict :=
  {| entries := list_to_map
       [("euler1", None); ("euler2", None); ("euler3", None);
        ("x", None); ("y", None); ("phase_id", None)];
     prop := ∅ |}.

(** The body of the loop over [enumerate(column_names)]. *)
Definition store_column (file_data : table) (cn : nat * string) (d : data_dict)
  : result data_dict :=
  let '(j, name) := cn in
  let* col := column file_data j in
  match entries d !! name with
  | Some _ => Ok {| entries := <[name := Some col]> (entries d); prop := prop d |}
  | None => Ok {| entries := entries d; prop := <[name := col]> (prop d) |}
  end.

(** [data_dict[name]] where an array is needed. *)
Definition array_entry (d : data_dict) (name : string) : result (list F) :=
  match entries d !! name with
  | Some (Some a) => Ok a
  | Some None => Raise TypeError
  | None => Raise KeyError
  end.

Definition prop_entry (d : data_dict) (name : string) : result (list F) :=
  match prop d !! name with
  | Some a => Ok a
  | None => Raise KeyError
  end.

(** [data_dict["phase_id"][np.where(data_dict["prop"]["ci"] == -1)] = -1]. *)
Definition mark_not_indexed (d : data_dict) : result data_dict :=
  let* phase_id := array_entry d "phase_id" in
  let* ci := prop_entry d "ci" in
  let not_indexed := where_ (map (fun c => f_eqb c (f_of_Z (-1))) ci) in
  let* phase_id := setitem_ids phase_id not_indexed [f_of_Z (-1)] in
  Ok {| entries := <["phase_id" := Some phase_id]> (entries d); prop := prop d |}.

(** [np.column_stack((euler1, euler2, euler3))], row by row. *)
Fixpoint column_stack3 (a b c : list F) : list (F * F * F) :=
  match a, b, c with
  | x :: a', y :: b', z :: c' => (x, y, z) :: column_stack3 a' b' c'
  | _, _, _ => []
  end.

(** The keyword arguments [CrystalMap] is called with.  [rotations] holds
    the rows handed to [Rotation.from_euler], [phase_list] the arguments
    of [PhaseList]: names, point groups, structures (title and lattice
    constants) and ids. *)
Record crystal_map_args : Type := {
  rotations : list (F * F * F);
  x : option (list F);
  y : option (list F);
  phase_id : option (list F);
  properties : gmap string (list F);
  phase_list :
    list string * list string * list (string * list F) * list Z;
  scan_unit : string
}.

(** [file_reader].  [file] is the text of the file, line by line, and
    [file_data] what [np.loadtxt] makes of it. *)
Definition file_reader (file : list string) (file_data : table)
  : result crystal_map_args :=
  let header := _get_header file in
  let* (phase_ids, phase_names, symmetries, lattice_constants) :=
    _get_phases_from_header header in
  let structures := zip phase_names lattice_constants in
  let '(vendor, column_names) := _get_vendor_columns header (n_cols file_data) in
  let* data_dict :=
    for_each (store_column file_data) (imap pair column_names)
      empty_data_dict in
  let phase_list := (phase_names, symmetries, structures, phase_ids) in
  let* data_dict :=
    if vendor_eqb vendor tsl then mark_not_indexed data_dict
    else Ok data_dict in
  let scan_unit :=
    if vendor_eqb vendor tsl || vendor_eqb vendor emsoft then "um" else "nm" in
  let* euler1 := array_entry data_dict "euler1" in
  let* euler2 := array_entry data_dict "euler2" in
  let* euler3 := array_entry data_dict "euler3" in
  Ok {| rotations := column_stack3 euler1 euler2 euler3;
        x := default None (entries data_dict !! "x");
        y := default None (entries data_dict !! "y");
        phase_id := default None (entries data_dict !! "phase_id");
        properties := prop data_dict;
        phase_list := phase_list;
        scan_unit := scan_unit |}.
End Reader.

Arguments table F : clear implicits.
Arguments data_dict F : clear implicits.
Arguments crystal_map_args F : clear implicits.

(** *** The writer *)

Definition nl : string := String "010"%char EmptyString.

Section Writer.
Context {F : Type} `{Float64 F}.

(** [orix.__version__]. *)
Variable __version__ : string.

(** Modelled from the spec: the crystal map (the container that owns the
    geometry) is not among the sources.  These are the attributes the
    writer reads: of a phase its name, the name of its point group and
    the six lattice constants [structure.lattice.abcABG()]; of the map
    its geometry, its phases with their ids in iteration order, the keys
    of its properties, and [get_map_data], which returns the data of
    "rotations", "phase_id" or a property for every point of the grid in
    row-major order (here: flattened), rounded to [decimals] and with
    [fill_value] at the points that are not in the data. *)
Record Phase : Type := {
  name : string;
  point_group_name : string;
  abcABG : list F
}.

Record CrystalMap : Type := {
  ndim : nat;
  shape : list nat;
  dx : F;
  dy : F;
  phases : list (Z * Phase);
  prop_keys : list string;
  get_map_data : string -> option nat -> option F -> result (list F)
}.

(** [_get_nrows_ncols_step_sizes]. *)
Definition _get_nrows_ncols_step_sizes (crystal_map : CrystalMap)
  : result (nat * nat * F * F) :=
  if Nat.eqb (ndim crystal_map) 1 then
    match shape crystal_map with
    | ncols :: _ => Ok (1, ncols, f_of_Z 1, dx crystal_map)
    | [] => Raise IndexError
    end
  else
    match shape crystal_map with
    | [nrows; ncols] => Ok (nrows, ncols, dy crystal_map, dx crystal_map)
    | _ => Raise ValueError
    end.

(** [_get_column_width]. *)
Definition _get_column_width (max_value : F) (decimals : nat) : nat :=
  String.length (Str.of_Z (f_floor max_value)) + decimals + 1.

(** The text added to the header for one phase. *)
Definition phase_text (phase_id : Z) (phase : Phase) : string :=
  let lattice_constants := Str.join " " (map (f_fixed 3) (abcABG phase)) in
  "Phase " +:+ Str.of_Z phase_id +:+ nl
  +:+ "MaterialName    " +:+ name phase +:+ nl
  +:+ "Formula    " +:+ name phase +:+ nl
  +:+ "Info" +:+ nl
  +:+ "Symmetry    " +:+ point_group_name phase +:+ nl
  +:+ "LatticeConstants    " +:+ lattice_constants +:+ nl
  +:+ "NumberFamilies    0" +:+ nl.

Definition microscope_text : string :=
  "TEM_PIXperUM           1.000000" +:+ nl
  +:+ "x-star                 0.000000" +:+ nl
  +:+ "y-star                 0.000000" +:+ nl
  +:+ "z-star                 0.000000" +:+ nl
  +:+ "WorkingDistance        0.000000" +:+ nl
  +:+ nl.

Definition map_text (crystal_map : CrystalMap) (nrows ncols : nat) : string :=
  "GRID: SqrGrid" +:+ nl
  +:+ "XSTEP: " +:+ f_fixed 6 (dx crystal_map) +:+ nl
  +:+ "YSTEP: " +:+ f_fixed 6 (dy crystal_map) +:+ nl
  +:+ "NCOLS_ODD: " +:+ Str.of_nat ncols +:+ nl
  +:+ "NCOLS_EVEN: " +:+ Str.of_nat ncols +:+ nl
  +:+ "NROWS: " +:+ Str.of_nat nrows +:+ nl
  +:+ nl
  +:+ "OPERATOR: orix " +:+ __version__ +:+ nl
  +:+ nl
  +:+ "SAMPLEID:" +:+ nl
  +:+ nl
  +:+ "SCANID:" +:+ nl.

(** [_get_ang_header]. *)
Definition _get_ang_header (crystal_map : CrystalMap) : result string :=
  let* (nrows, ncols, _, _) := _get_nrows_ncols_step_sizes crystal_map in
  let header := microscope_text in
  let header :=
    fold_left (fun header '(phase_id, phase) =>
                 header +:+ phase_text phase_id phase)
              (phases crystal_map) header in
  let header := header +:+ map_text crystal_map nrows ncols in
  Ok header.

(** [k.lower().replace("_", "")] on ASCII. *)
Definition lower_char (c : ascii) : ascii :=
  if Str.in_range 65 90 c then ascii_of_nat (Str.code c + 32) else c.

Fixpoint lower_no_underscore (k : string) : string :=
  match k with
  | EmptyString => EmptyString
  | String c rest =>
      if Ascii.eqb c "_" then lower_no_underscore rest
      else String (lower_char c) (lower_no_underscore rest)
  end.

(** [np.argmax(k == names)] when [(k == names).any()]: the first position
    holding [k]. *)
Fixpoint position (k : string) (names : list string) : option nat :=
  match names with
  | [] => None
  | n :: rest =>
      if String.eqb k n then Some 0 else S <$> position k rest
  end.

(** The loop over [expected_prop_names] with its [break]: the property
    name standing where the first alias that occurs is found. *)
Fixpoint find_prop_name (expected_prop_names prop_names prop_names_lower : list string)
  : option string :=
  match expected_prop_names with
  | [] => None
  | k :: rest =>
      match position k prop_names_lower with
      | Some i => prop_names !! i
      | None => find_prop_name rest prop_names prop_names_lower
      end
  end.

(** [_get_prop_array]; [None] is the plain [return]. *)
Definition _get_prop_array (crystal_map : CrystalMap)
  (prop_name : option string) (expected_prop_names prop_names : list string)
  (prop_names_lower_arr : list string) (map_size decimals : nat)
  (fill_value : F) : result (option (list F)) :=
  match prop_name with
  | Some prop_name =>
      let* prop :=
        get_map_data crystal_map prop_name (Some decimals) (Some fill_value) in
      Ok (Some prop)
  | None =>
      match find_prop_name expected_prop_names prop_names prop_names_lower_arr with
      | None => Ok None
      | Some prop_name =>
          let* prop :=
            get_map_data crystal_map prop_name (Some decimals) (Some fill_value) in
          Ok (Some prop)
      end
  end.

Definition all_expected_prop_names : list (list string) :=
  [["iq"; "image_quality"; "imagequality"];
   ["ci"; "confidence_index"; "confidenceindex"];
   ["ss"; "sem_signal"; "semsignal"];
   ["fit"; "pattern_fit"; "patternfit"]].

(** [a.reshape(n,)]. *)
Definition reshape1 (n : nat) (a : list F) : result (list F) :=
  if Nat.eqb (length a) n then Ok a else Raise ValueError.

(** [a.reshape((n, 3))]: rows of three. *)
Fixpoint rows_of_three (a : list F) (n : nat) : list (list F) :=
  match n, a with
  | S n', x :: y :: z :: rest => [x; y; z] :: rows_of_three rest n'
  | _, _ => []
  end.

Definition reshape3 (n : nat) (a : list F) : result (list (list F)) :=
  if Nat.eqb (length a) (n * 3) then Ok (rows_of_three a n)
  else Raise ValueError.

(** [arr[:, i] = prop] on an array given by its rows; the array is
    float32. *)
Definition set_column (i : nat) (prop : list F) (arr : list (list F))
  : list (list F) :=
  zip_with (fun row v => <[i := f_single v]> row) arr prop.

(** [arr[:, i]]. *)
Definition get_column (i : nat) (arr : list (list F)) : list F :=
  map (fun row => nth i row (f_of_Z 0)) arr.

(** [_get_prop_arrays]: [map_size] rows of four. *)
Definition _get_prop_arrays (crystal_map : CrystalMap)
  (prop_names : list string) (desired_prop_names : list (option string))
  (map_size decimals : nat) : result (list (list F)) :=
  let prop_names_lower := map lower_no_underscore prop_names in
  let prop_arrays := replicate map_size (replicate 4 (f_of_Z 0)) in
  for_each
    (fun '(i, (name, names)) prop_arrays =>
       let* prop :=
         _get_prop_array crystal_map name names prop_names prop_names_lower
           map_size decimals (f_of_Z 0) in
       match prop with
       | Some prop =>
           let* prop := reshape1 map_size prop in
           Ok (set_column i prop prop_arrays)
       | None => Ok prop_arrays
       end)
    (imap pair (zip desired_prop_names all_expected_prop_names))
    prop_arrays.

(** [np.max(a)]. *)
Definition np_max (a : list F) : result F :=
  match a with
  | [] => Raise ValueError
  | v :: rest => Ok (fold_left (fun m w => if f_leb w m then m else w) rest v)
  end.

(** [np.arange(n) * d]. *)
Definition arange_times (n : nat) (d : F) : list F :=
  map (fun j => f_mul (f_of_Z (Z.of_nat j)) d) (seq 0 n).

(** [np.tile(a, n)]. *)
Definition tile (a : list F) (n : nat) : list F := concat (replicate n a).

(** [np.sort(a)]. *)
Fixpoint insert_sorted (v : F) (a : list F) : list F :=
  match a with
  | [] => [v]
  | w :: rest => if f_leb v w then v :: a else w :: insert_sorted v rest
  end.

Definition np_sort (a : list F) : list F := foldr insert_sorted [] a.

(** A one-dimensional array as a block of one column. *)
Definition as_column (a : list F) : list (list F) := map (fun v => [v]) a.

(** [np.column_stack(blocks)]: the rows of the blocks side by side. *)
Definition column_stack (blocks : list (list (list F)))
  : result (list (list F)) :=
  match blocks with
  | [] => Raise ValueError
  | first :: _ =>
      let n := length first in
      if forallb (fun b => Nat.eqb (length b) n) blocks
      then Ok (map (fun i => concat (map (fun b => nth i b []) blocks)) (seq 0 n))
      else Raise ValueError
  end.

(** One conversion of the format string: [%<width>.<decimals>f] or [%i]. *)
Inductive conversion : Type :=
| fixed (width decimals : nat)
| integer.

(** What [np.savetxt] is given to write under a file name. *)
Record saved : Type := {
  X : list (list F);
  fmt : list conversion;
  header : string
}.

(** Everything [file_writer] does before [np.savetxt]. *)
Definition prepare (crystal_map : CrystalMap)
  (image_quality_prop confidence_index_prop sem_signal_prop pattern_fit_prop
     : option string) : result saved :=
  if Nat.ltb 2 (ndim crystal_map) then Raise ValueError else
  let* header := _get_ang_header crystal_map in
  let decimals := 5 in
  let* (nrows, ncols, dy, dx) := _get_nrows_ncols_step_sizes crystal_map in
  let map_size := nrows * ncols in
  let* eulers :=
    get_map_data crystal_map "rotations" (Some decimals) (Some (f_of_Z 0)) in
  let* eulers := reshape3 map_size eulers in
  let x := tile (arange_times ncols dx) nrows in
  let y := np_sort (tile (arange_times nrows dy) ncols) in
  let* x_max := np_max x in
  let x_width := _get_column_width x_max 5 in
  let* y_max := np_max y in
  let y_width := _get_column_width y_max 5 in
  let* prop_arrays :=
    _get_prop_arrays crystal_map (prop_keys crystal_map)
      [image_quality_prop; confidence_index_prop; sem_signal_prop;
       pattern_fit_prop]
      map_size decimals in
  let* iq_max := np_max (get_column 0 prop_arrays) in
  let iq_width := _get_column_width iq_max 5 in
  let* ci_max := np_max (get_column 1 prop_arrays) in
  let ci_width := _get_column_width ci_max 5 in
  let* sem_signal_max := np_max (get_column 3 prop_arrays) in
  let sem_signal_width := _get_column_width sem_signal_max 5 in
  let* fit_max := np_max (get_column 2 prop_arrays) in
  let fit_width := _get_column_width fit_max 5 in
  let* phase_id := get_map_data crystal_map "phase_id" None None in
  let* phase_id := reshape1 map_size phase_id in
  let* X :=
    column_stack
      [eulers; as_column x; as_column y; map (take 2) prop_arrays;
       as_column phase_id; map (drop 2) prop_arrays] in
  Ok {| X := X;
        fmt := [fixed 8 5; fixed 8 5; fixed 8 5; fixed x_width 5;
                fixed y_width 5; fixed iq_width 5; fixed ci_width 5; integer;
                fixed fit_width 5; fixed sem_signal_width 5];
        header := header |}.

(** [file_writer]: the files before, and the files and the outcome
    after.  [np.savetxt], the last statement, is the only one that
    touches a file. *)
Definition file_writer (files : gmap string saved) (filename : string)
  (crystal_map : CrystalMap)
  (image_quality_prop confidence_index_prop sem_signal_prop pattern_fit_prop
     : option string) : gmap string saved * outcome :=
  match prepare crystal_map image_quality_prop confidence_index_prop
          sem_signal_prop pattern_fit_prop with
  | Raise e => (files, Raised e)
  | Ok out => (<[filename := out]> files, Done)
  end.
End Writer.

Arguments saved F : clear implicits.
Arguments Phase F : clear implicits.
Arguments CrystalMap F : clear implicits.

End Ang.

(** ** Concrete inputs *)

Module Sample.
Import Props.

Definition int_seq (l : list Z) : list (scalar Q) := map SInt l.

(** N = 5, mask = [T,T,F,T,T], nothing stored yet. *)
Definition store5 : store Q :=
  {| dict := ∅; id := [0; 1; 3; 4];
     is_in_data := [true; true; false; true; true] |}.

(** Two points, both in the data, nothing stored yet. *)
Definition store2 : store Q :=
  {| dict := ∅; id := [0; 1]; is_in_data := [true; true] |}.

(** Three points, the last one not in the data, and a float array
    [0.5, 0.5, 0.5] stored under "iq". *)
Definition store3 : store Q :=
  {| dict := {[ "iq" := [SFloat (1 # 2); SFloat (1 # 2); SFloat (1 # 2)] ]};
     id := [0; 1]; is_in_data := [true; true; false] |}.

(** One point, not in the data. *)
Definition store1 : store Q :=
  {| dict := ∅; id := []; is_in_data := [false] |}.

(** A file of the default vendor: fourteen columns, two points.  The
    first point has confidence index -1 and phase id 3 in the file. *)
Definition tsl_file : list string :=
  ["# TEM_PIXperUM          1.000000";
   "# Phase 3";
   "# MaterialName Aluminum";
   "# Formula Al";
   "# Symmetry 43";
   "# LatticeConstants 4.040 4.040 4.040 90.000 90.000 90.000";
   "0.0 0.0 0.0 0.0 0.0 10.0 -1.0 3 0 1.0 0 0 0 0";
   "0.0 0.0 0.0 1.0 0.0 12.0 0.5 3 0 1.0 0 0 0 0"].

Definition tsl_table : Ang.table Q :=
  {| Ang.n_cols := 14;
     Ang.rows :=
       [[0; 0; 0; 0; 0; 10; -1; 3; 0; 1; 0; 0; 0; 0];
        [0; 0; 0; 1; 0; 12; 1 # 2; 3; 0; 1; 0; 0; 0; 0]]%Q |}.

(** A crystal map on a 2 x 2 grid with four properties that are constant
    over the grid: iq = 5, ci = 0.5, ss (SEM signal) = 700, fit (pattern
    fit) = 9. *)
Definition aluminium : Ang.Phase Q :=
  {| Ang.name := "Al"; Ang.point_group_name := "m-3m";
     Ang.abcABG := [404 # 100; 404 # 100; 404 # 100; 90; 90; 90]%Q |}.

Definition grid_data (item : string) (decimals : option nat)
  (fill_value : option Q) : result (list Q) :=
  if String.eqb item "rotations" then Ok (replicate 12 0%Q)
  else if String.eqb item "phase_id" then Ok (replicate 4 1%Q)
  else if String.eqb item "iq" then Ok (replicate 4 5%Q)
  else if String.eqb item "ci" then Ok (replicate 4 (1 # 2)%Q)
  else if String.eqb item "ss" then Ok (replicate 4 700%Q)
  else if String.eqb item "fit" then Ok (replicate 4 9%Q)
  else Raise KeyError.

Definition grid_map (ndim : nat) (shape : list nat) : Ang.CrystalMap Q :=
  {| Ang.ndim := ndim; Ang.shape := shape; Ang.dx := 1%Q; Ang.dy := 1%Q;
     Ang.phases := [(1%Z, aluminium)];
     Ang.prop_keys := ["iq"; "ci"; "fit"; "ss"];
     Ang.get_map_data := grid_data |}.
End Sample.

(** ** What a regular expression matches *)

(** The strings an expression matches, for stating what [Regex.search]
    finds. *)
Inductive matches : Regex.re -> string -> Prop :=
| matches_eps : matches Regex.Eps ""
| matches_class (p : ascii -> bool) (c : ascii) :
    p c = true -> matches (Regex.Class p) (String c "")
| matches_cat (r1 r2 : Regex.re) (s1 s2 : string) :
    matches r1 s1 -> matches r2 s2 -> matches (Regex.Cat r1 r2) (s1 +:+ s2)
| matches_alt_l (r1 r2 : Regex.re) (s : string) :
    matches r1 s -> matches (Regex.Alt r1 r2) s
| matches_alt_r (r1 r2 : Regex.re) (s : string) :
    matches r2 s -> matches (Regex.Alt r1 r2) s
| matches_star_nil (r : Regex.re) : matches (Regex.Star r) ""
| matches_star_app (r : Regex.re) (s1 s2 : string) :
    matches r s1 -> matches (Regex.Star r) s2 ->
    matches (Regex.Star r) (s1 +:+ s2).

(** The five markers of the patterns of [_get_phases_from_header]. *)
Definition phase_markers : list string :=
  ["# Phase"; "# MaterialName"; "# Formula"; "# Symmetry"; "# LatticeConstants"].

(** ** Proof steps *)

(** A string is not among the strings of a list written out in full. *)
Ltac not_among :=
  let Hin := fresh "Hin" in
  intros Hin;
  repeat (apply elem_of_cons in Hin as [Hin|Hin]; [discriminate Hin|]);
  now apply elem_of_nil in Hin.

(** * Properties *)

(** ** Index assignment and mask selection *)

Section NumpyFacts.
Import Numpy.
Context {A : Type}.
Implicit Types (a vs : list A) (ids : list nat) (mask : list bool).

Lemma put_length a ids vs : length (put a ids vs) = length a.
Proof.
  revert a vs. induction ids as [|i ids IH]; intros a [|v vs]; simpl; auto.
  rewrite IH. apply length_insert.
Qed.


(** A selection has one entry per [True] position. *)
Lemma select_length mask : forall a k,
  length a = length mask ->
  length (select mask a) = length (where_from k mask).
Proof.
  induction mask as [|b m IH]; intros [|x a] k Hlen; try discriminate;
    [reflexivity|].
  simpl in *. destruct b; simpl; [f_equal|]; apply IH; lia.
Qed.

Lemma where_from_bound k mask (i : nat) :
  i ∈ where_from k mask -> k <= i < k + length mask.
Proof.
  revert k. induction mask as [|[] m IH]; intros k Hi; simpl in *.
  - now apply elem_of_nil in Hi.
  - apply elem_of_cons in Hi as [->|Hi]; [lia|]. apply IH in Hi. lia.
  - apply IH in Hi. lia.
Qed.

Lemma where_from_in_range k mask a :
  k + length mask <= length a ->
  forallb (fun i => Nat.ltb i (length a)) (where_from k mask) = true.
Proof.
  intros Hlen. apply forallb_forall. intros i Hi.
  apply list_elem_of_In, where_from_bound in Hi.
  apply Nat.ltb_lt. lia.
Qed.

(** Writing one value per [True] position, in ascending order, changes
    the part of the array under the mask into an array whose selection is
    the written values. *)
Lemma put_where_from mask : forall (pre rest vs : list A),
  length rest = length mask ->
  length vs = length (where_from (length pre) mask) ->
  exists rest',
    put (pre ++ rest) (where_from (length pre) mask) vs = pre ++ rest'
    /\ length rest' = length rest
    /\ select mask rest' = vs
    /\ forall j, mask !! j = Some false -> rest' !! j = rest !! j.
Proof.
  induction mask as [|b m IH]; intros pre rest vs Hrest Hvs.
  - destruct rest; [|discriminate]. destruct vs; [|discriminate].
    exists []. simpl. repeat split; auto.
  - destruct rest as [|r rest]; [discriminate|]. simpl in Hrest.
    destruct b; simpl in *.
    + destruct vs as [|v vs]; [discriminate|]. simpl in Hvs.
      assert (Hins : <[length pre:=v]> (pre ++ r :: rest) = (pre ++ [v]) ++ rest).
      { rewrite insert_app_r_alt by lia. rewrite Nat.sub_diag. simpl.
        now rewrite <- app_assoc. }
      rewrite Hins.
      assert (HS : S (length pre) = length (pre ++ [v])).
      { rewrite length_app. simpl. lia. }
      rewrite HS in *.
      destruct (IH (pre ++ [v]) rest vs) as (rest' & Hput & Hl & Hsel & Hfr);
        [lia | lia |].
      exists (v :: rest'). rewrite Hput, <- app_assoc. simpl.
      repeat split; [lia | now rewrite Hsel |].
      intros [|j] Hj; [discriminate|]. simpl in *. now apply Hfr.
    + assert (HS : S (length pre) = length (pre ++ [r])).
      { rewrite length_app. simpl. lia. }
      rewrite HS in *.
      replace (pre ++ r :: rest) with ((pre ++ [r]) ++ rest)
        by now rewrite <- app_assoc.
      destruct (IH (pre ++ [r]) rest vs) as (rest' & Hput & Hl & Hsel & Hfr);
        [lia | lia |].
      exists (r :: rest'). rewrite Hput, <- app_assoc. simpl.
      repeat split; [lia | assumption |].
      intros [|j] Hj; [reflexivity|]. simpl in *. now apply Hfr.
Qed.


Lemma put_where mask a vs :
  length a = length mask ->
  length vs = length (where_ mask) ->
  select mask (put a (where_ mask) vs) = vs.
Proof.
  intros Ha Hvs.
  destruct (put_where_from mask [] a vs Ha Hvs) as (rest' & Hput & _ & Hsel & _).
  simpl in Hput. unfold where_. now rewrite Hput.
Qed.
End NumpyFacts.

(** ** The masked property store *)

Section StoreFacts.
Import Numpy Props.
Context {F : Type} `{Float64 F}.
Implicit Types (s : store F) (l a : list (scalar F)) (t : dtype).



Lemma cast_type t (x : scalar F) : type_of (cast t x) = t.
Proof. destruct t, x; reflexivity. Qed.


Lemma array_before_length s key :
  full_size s key -> length (array_before s key) = length (is_in_data s).
Proof.
  unfold full_size, array_before. intros Hfull.
  destruct (dict s !! key) as [a|] eqn:E; simpl.
  - now apply Hfull.
  - apply length_replicate.
Qed.

(** What a successful write leaves behind, in terms of the array it
    started from. *)
Lemma setitem_done s key (value : pyvalue F) s' :
  __setitem__ s key value = (s', Done) ->
  exists t vs,
    value_type value = Ok t
    /\ broadcast (length (id s)) (map (cast t) (entries value)) = Ok vs
    /\ dict s' = <[key := put (astype t (array_before s key)) (id s) vs]> (dict s)
    /\ id s' = id s /\ is_in_data s' = is_in_data s.
Proof.
  unfold __setitem__, setdefault, array_before.
  destruct (dict s !! key) as [a|] eqn:E; simpl;
    (destruct (value_type value) as [t|e]; [|discriminate]);
    unfold setitem_ids; simpl;
    (match goal with |- context [forallb ?f ?x] => destruct (forallb f x) end;
       [|discriminate]);
    (destruct (broadcast _ _) as [vs|e] eqn:B; simpl; [|discriminate]);
    intros [= <-]; exists t, vs; simpl; repeat split; auto.
  now rewrite insert_insert_eq.
Qed.


End StoreFacts.

(** ** The store on concrete inputs *)

Section StoreExamples.
Import Numpy Props Sample.

(** The scenario of the specification: the backing array becomes
    [1,2,0,3,4] and the read returns [1,2,3,4]. *)
Example store5_scenario :
  let '(s', o) := __setitem__ store5 "iq" (PSeq (int_seq [1; 2; 3; 4]%Z)) in
  o = Done
  /\ dict s' !! "iq" = Some (int_seq [1; 2; 0; 3; 4]%Z)
  /\ __getitem__ s' "iq" = Ok (int_seq [1; 2; 3; 4]%Z).
Proof. vm_compute. repeat split; reflexivity. Qed.

(** With no point in the data the write of the empty sequence raises:
    [value[0]] does not exist. *)
Example store1_empty_write :
  snd (__setitem__ store1 "iq" (PSeq [])) = Raised IndexError.
Proof. reflexivity. Qed.

(** When [id] lists every point although the mask hides one, the values
    for the points in the data do not fit the index array. *)
Example ids_of_all_points :
  snd (__setitem__ {| dict := ∅; id := [0; 1; 2]; is_in_data := [true; true; false] |}
         "iq" (PSeq (int_seq [1; 2]%Z)))
  = Raised ValueError.
Proof. reflexivity. Qed.




End StoreExamples.

(** ** Vendor detection and the column resolver *)

Section ResolverFacts.
Import Ang.

Lemma scan_footprint_spec name footprint header current :
  scan_footprint name footprint header current
  = if existsb (Str.contains footprint) header then name else current.
Proof.
  induction header as [|line rest IH]; simpl; [reflexivity|].
  destruct (Str.contains footprint line); simpl; [reflexivity | exact IH].
Qed.

(** C5, as the code has it.  The vendor is "astar" if some line contains
    "ACOM"; otherwise "emsoft" if some line contains "EMsoft"; otherwise
    "tsl".  When both footprints occur the later entry of the footprint
    table, "ACOM", decides. *)
Theorem detect_vendor_spec (header : list string) :
  detect_vendor header
  = if existsb (Str.contains "ACOM") header then astar
    else if existsb (Str.contains "EMsoft") header then emsoft
    else tsl.
Proof.
  unfold detect_vendor, vendor_footprint. simpl.
  rewrite !scan_footprint_spec. reflexivity.
Qed.

(** C5 as stated fails: "EMsoft" occurs, and occurs first, yet the
    vendor is not "emsoft". *)
Lemma detect_vendor_both_footprints :
  Str.contains "EMsoft" "# EMsoft" = true
  /\ Str.contains "ACOM" "# EMsoft" = false
  /\ detect_vendor ["# EMsoft"; "# ACOM"] = astar
  /\ detect_vendor ["# EMsoft"; "# ACOM"] <> emsoft.
Proof. repeat split; try reflexivity. discriminate. Qed.

Lemma extra_columns_length n : length (extra_columns n) = n.
Proof. unfold extra_columns. now rewrite length_map, length_seq. Qed.

Lemma extra_columns_lookup n (i : nat) :
  i < n -> extra_columns n !! i = Some ("unknown" +:+ Str.of_nat (i + 3)).
Proof.
  intros Hi. unfold extra_columns.
  rewrite list_lookup_fmap, lookup_seq_lt by assumption. reflexivity.
Qed.

(** C4, as the code has it.  When the column count of the file differs
    from the count expected for the detected vendor, the resolver answers
    "unknown" with the eight fallback names followed by one name per
    column beyond the eighth, the k-th of them "unknown(k+2)".  The list
    has as many names as the file has columns only if the file has at
    least eight; with fewer it keeps its eight names. *)
Theorem fallback_columns (header : list string) (n_cols_file : nat) :
  n_cols_file <> length (column_names (detect_vendor header)) ->
  exists names,
    _get_vendor_columns header n_cols_file = (unknown, names)
    /\ length names = Nat.max 8 n_cols_file
    /\ take 8 names = column_names unknown
    /\ forall k : nat, 1 <= k -> 8 + k <= n_cols_file ->
         names !! (7 + k) = Some ("unknown" +:+ Str.of_nat (k + 2)).
Proof.
  intros Hne. unfold _get_vendor_columns.
  apply Nat.eqb_neq in Hne. rewrite Hne. simpl negb. cbv iota.
  change (length (column_names unknown)) with 8.
  destruct (Nat.ltb 8 n_cols_file) eqn:Hlt.
  - apply Nat.ltb_lt in Hlt. eexists. split; [reflexivity|].
    split; [|split].
    + rewrite length_app, extra_columns_length. simpl. lia.
    + reflexivity.
    + intros k Hk1 Hk2. rewrite lookup_app_r by (simpl; lia).
      change (length (column_names unknown)) with 8.
      rewrite extra_columns_lookup by lia.
      do 3 f_equal. lia.
  - apply Nat.ltb_ge in Hlt. eexists. split; [reflexivity|].
    split; [|split].
    + simpl. lia.
    + reflexivity.
    + intros k Hk1 Hk2. lia.
Qed.

Lemma fallback_columns_witness :
  exists names,
    _get_vendor_columns ["# x"] 10 = (unknown, names)
    /\ length names = Nat.max 8 10
    /\ take 8 names = column_names unknown
    /\ forall k : nat, 1 <= k -> 8 + k <= 10 ->
         names !! (7 + k) = Some ("unknown" +:+ Str.of_nat (k + 2)).
Proof.
  apply (fallback_columns ["# x"] 10). vm_compute. discriminate.
Defined.

(** C4 as stated fails for a file with fewer than eight columns: the
    fallback keeps its eight names. *)
Lemma fallback_columns_short_file :
  5 <> length (column_names (detect_vendor ["# x"]))
  /\ _get_vendor_columns ["# x"] 5 = (unknown, column_names unknown)
  /\ length (snd (_get_vendor_columns ["# x"] 5)) <> 5.
Proof.
  split; [vm_compute; discriminate|]. split; [reflexivity|].
  vm_compute. discriminate.
Qed.
End ResolverFacts.

(** ** Phase metadata *)

Section PhaseFacts.
Import Ang.
Context {F : Type} `{Float64 F}.
Implicit Types (p : phases_dict F) (header : list string).

Lemma range_length a b : length (range a b) = Z.to_nat (b - a).
Proof. unfold range. now rewrite length_map, length_seq. Qed.

Lemma range_lookup a b (j : nat) :
  j < Z.to_nat (b - a) -> range a b !! j = Some (a + Z.of_nat j)%Z.
Proof.
  intros Hj. unfold range.
  now rewrite list_lookup_fmap, lookup_seq_lt by assumption.
Qed.

Lemma fold_max_spec (l : list Z) : forall x,
  (forall y, y ∈ x :: l -> (y <= fold_left Z.max l x)%Z)
  /\ fold_left Z.max l x ∈ x :: l.
Proof.
  induction l as [|z l IH]; intros x; simpl.
  - split; [|left]. intros y Hy. apply list_elem_of_singleton in Hy. lia.
  - destruct (IH (Z.max x z)) as [Hub Hin]. split.
    + intros y Hy. apply elem_of_cons in Hy as [->|Hy].
      * specialize (Hub (Z.max x z) ltac:(left)). lia.
      * apply elem_of_cons in Hy as [->|Hy].
        -- specialize (Hub (Z.max x z) ltac:(left)). lia.
        -- apply Hub. now right.
    + apply elem_of_cons in Hin as [Hin|Hin].
      * rewrite Hin. destruct (Z.max_spec x z) as [[_ ->]|[_ ->]];
          [right; left | left].
      * right. now right.
Qed.

(** [max_int] returns the largest element of a non-empty list. *)
Lemma max_int_spec (l : list Z) :
  l <> [] ->
  exists m, max_int l = Ok m /\ m ∈ l /\ forall y, y ∈ l -> (y <= m)%Z.
Proof.
  destruct l as [|x l]; [congruence|]. intros _.
  destruct (fold_max_spec l x) as [Hub Hin].
  exists (fold_left Z.max l x). simpl. auto.
Qed.

(** C7.  With [n] phases (material names) in the header: if no phase id
    was found the ids are 0..n-1; if k ids were found, 0 < k < n, the ids
    are the found ones followed by n-k consecutive ids starting one above
    the largest found id. *)
Theorem phase_ids_completed header p (found : list Z) :
  collect_phases header = Ok p ->
  traverse Str.to_int (phases_id p) = Ok found ->
  exists ids names point_groups lattice_constants,
    _get_phases_from_header header
    = Ok (ids, names, point_groups, lattice_constants)
    /\ (found = [] ->
        ids = map Z.of_nat (seq 0 (length (phases_name p))))
    /\ (0 < length found < length (phases_name p) ->
        exists m,
          m ∈ found /\ (forall y, y ∈ found -> (y <= m)%Z)
          /\ ids = found
                   ++ map (fun j => (m + 1 + Z.of_nat j)%Z)
                        (seq 0 (length (phases_name p) - length found))).
Proof.
  intros Hp Hfound. unfold _get_phases_from_header.
  rewrite Hp. simpl. rewrite Hfound. simpl.
  unfold complete_ids.
  destruct found as [|x found].
  - simpl. eexists _, _, _, _. split; [reflexivity|]. split.
    + intros _. unfold range. rewrite Z.sub_0_r, Nat2Z.id. reflexivity.
    + simpl. lia.
  - cbn [length Nat.eqb negb andb].
    destruct (Z.of_nat (length (phases_name p))
              - Z.of_nat (S (length found)) >? 0)%Z eqn:Hgt.
    + destruct (max_int_spec (x :: found)) as (m & Hm & Hin & Hub);
        [discriminate|].
      rewrite andb_true_r, Hm. simpl.
      eexists _, _, _, _. split; [reflexivity|]. split; [discriminate|].
      intros Hk. exists m. split; [assumption|]. split; [assumption|].
      f_equal. unfold range.
      replace (Z.to_nat _) with (length (phases_name p) - S (length found))
        by lia.
      reflexivity.
    + rewrite andb_false_l. simpl.
      eexists _, _, _, _. split; [reflexivity|]. split; [discriminate|].
      intros Hk. rewrite Z.gtb_ltb in Hgt. apply Z.ltb_ge in Hgt.
      simpl in Hk. lia.
Qed.

Lemma for_each_invariant {A S : Type} (P : S -> Prop)
  (body : A -> S -> result S) (l : list A) : forall st st',
  (forall x s s', x ∈ l -> body x s = Ok s' -> P s -> P s') ->
  P st -> for_each body l st = Ok st' -> P st'.
Proof.
  induction l as [|x l IH]; intros st st' Hbody Hst; simpl.
  - now intros [= <-].
  - destruct (body x st) as [st1|e] eqn:E; simpl; [|discriminate].
    apply IH.
    + intros y s s' Hy. apply Hbody. now right.
    + eapply Hbody; [left | exact E | exact Hst].
Qed.

Lemma last_item_elem {A : Type} (l : list A) (x : A) :
  last_item l = Ok x -> x ∈ l.
Proof.
  unfold last_item. destruct (last l) as [y|] eqn:E; [|discriminate].
  intros [= <-]. apply last_Some in E as [l' ->].
  apply elem_of_app. right. left.
Qed.

(** A token is never empty. *)
Lemma tokens_nonempty (line token : string) :
  token ∈ tokens line -> token <> "".
Proof.
  unfold tokens. intros Hin. apply list_elem_of_In, filter_In in Hin as [_ Hne].
  intros ->. discriminate.
Qed.

Lemma record_match_formulas (k : key) (line : string) p p' :
  record_match k line p = Ok p' ->
  Forall (fun f => f <> "") (phases_formula p) ->
  Forall (fun f => f <> "") (phases_formula p').
Proof.
  unfold record_match. intros Hm Hp.
  destruct k; simpl in Hm;
    try (destruct (last_item (tokens line)) as [g|e] eqn:E; simpl in Hm;
         [|discriminate]);
    try (destruct (traverse f_parse (drop 1 (tokens line))) as [g|e] eqn:E;
         simpl in Hm; [|discriminate]);
    injection Hm as <-; simpl; try assumption.
  apply Forall_app. split; [assumption|].
  apply Forall_singleton. eapply tokens_nonempty, last_item_elem, E.
Qed.

Lemma collect_phases_formulas header p :
  collect_phases header = Ok p ->
  Forall (fun f => f <> "") (phases_formula p).
Proof.
  unfold collect_phases. intros Hp.
  revert Hp.
  apply (for_each_invariant
           (fun q => Forall (fun f => f <> "") (phases_formula q)));
    [|apply Forall_nil_2].
  intros line s s' _ Hscan Hs. revert Hs Hscan. unfold scan_line.
  apply (for_each_invariant
           (fun q => Forall (fun f => f <> "") (phases_formula q))).
  intros [k exp] q q' _. destruct (Regex.search exp line).
  - apply record_match_formulas.
  - now intros [= <-].
Qed.

(** Whatever the header, the names returned are the material names: a
    formula read from a line is never the empty string, so the test
    [any(i != "")] sends every non-empty formula list to the names. *)
Lemma display_names_are_material_names header p :
  collect_phases header = Ok p -> display_names p = phases_name p.
Proof.
  intros Hp. apply collect_phases_formulas in Hp.
  unfold display_names in *.
  destruct (phases_formula p) as [|f fs]; [reflexivity|].
  apply Forall_cons in Hp as [Hf _]. simpl.
  destruct (String.eqb_spec f ""); [contradiction | reflexivity].
Qed.
End PhaseFacts.

Section PhaseExamples.
Import Ang.

(** The scenarios of the specification: phases [A,B,C] with the explicit
    id 2 get [2,3,4], and without explicit ids [0,1,2]. *)
Example ids_after_explicit_2 :
  _get_phases_from_header (F := Q)
    ["# Phase 2"; "# MaterialName A"; "# MaterialName B"; "# MaterialName C"]
  = Ok ([2; 3; 4]%Z, ["A"; "B"; "C"], [], []).
Proof. reflexivity. Qed.

Example ids_without_explicit :
  _get_phases_from_header (F := Q)
    ["# MaterialName A"; "# MaterialName B"; "# MaterialName C"]
  = Ok ([0; 1; 2]%Z, ["A"; "B"; "C"], [], []).
Proof. reflexivity. Qed.

Lemma phase_ids_completed_witness :
  exists ids names point_groups lattice_constants,
    _get_phases_from_header (F := Q)
      ["# Phase 2"; "# MaterialName A"; "# MaterialName B"; "# MaterialName C"]
    = Ok (ids, names, point_groups, lattice_constants)
    /\ ([2%Z] = [] -> ids = map Z.of_nat (seq 0 3))
    /\ (0 < length [2%Z] < 3 ->
        exists m,
          m ∈ [2%Z] /\ (forall y, y ∈ [2%Z] -> (y <= m)%Z)
          /\ ids = [2%Z] ++ map (fun j => (m + 1 + Z.of_nat j)%Z) (seq 0 (3 - 1))).
Proof.
  apply (phase_ids_completed (F := Q)
           ["# Phase 2"; "# MaterialName A"; "# MaterialName B"; "# MaterialName C"]
           {| phases_name := ["A"; "B"; "C"]; phases_formula := [];
              phases_point_group := []; phases_lattice_constants := [];
              phases_id := ["2"] |}
           [2%Z]); reflexivity.
Defined.

(** C3 on a header with a material name and a formula: the claim names
    the formula "Al", the code returns the material name. *)
Theorem formula_is_not_used :
  _get_phases_from_header (F := Q)
    ["# Phase 1"; "# MaterialName Aluminum"; "# Formula Al"]
  = Ok ([1%Z], ["Aluminum"], [], []).
Proof. reflexivity. Qed.
End PhaseExamples.

(** ** The reader *)

Section ReaderFacts.
Import Numpy Ang.
Context {F : Type} `{Float64 F}.
Implicit Types (d : data_dict F) (file_data : table F).

Lemma for_each_app {A S : Type} (body : A -> S -> result S) (l1 l2 : list A) :
  forall st,
    for_each body (l1 ++ l2) st
    = let* st' := for_each body l1 st in for_each body l2 st'.
Proof.
  induction l1 as [|x l1 IH]; intros st; simpl; [reflexivity|].
  destruct (body x st); simpl; [apply IH | reflexivity].
Qed.

(** A column with another name leaves the entries of [K] alone. *)
Lemma store_column_other file_data (j : nat) (name K : string) d d' :
  store_column file_data (j, name) d = Ok d' -> name <> K ->
  entries d' !! K = entries d !! K /\ prop d' !! K = prop d !! K.
Proof.
  unfold store_column. intros Hs Hne.
  destruct (column file_data j) as [col|e]; simpl in Hs; [|discriminate].
  destruct (entries d !! name); injection Hs as <-; simpl;
    rewrite ?lookup_insert_ne by assumption; auto.
Qed.

Lemma store_columns_other file_data (K : string) (l : list (nat * string)) :
  forall d d',
    Forall (fun jn => jn.2 <> K) l ->
    for_each (store_column file_data) l d = Ok d' ->
    entries d' !! K = entries d !! K /\ prop d' !! K = prop d !! K.
Proof.
  induction l as [|[j name] l IH]; intros d d' Hl; cbn [for_each].
  - now intros [= <-].
  - apply Forall_cons in Hl as [Hne Hl].
    destruct (store_column file_data (j, name) d) as [d1|e] eqn:E;
      cbn [rbind]; [|discriminate].
    intros Hrest. destruct (IH d1 d' Hl Hrest) as [-> ->].
    eapply store_column_other; eauto.
Qed.

(** The column named [K] itself. *)
Lemma store_column_same file_data (j : nat) (K : string) d d' :
  store_column file_data (j, K) d = Ok d' ->
  exists col,
    column file_data j = Ok col
    /\ (is_Some (entries d !! K) -> entries d' !! K = Some (Some col))
    /\ (entries d !! K = None -> prop d' !! K = Some col).
Proof.
  unfold store_column.
  destruct (column file_data j) as [col|e]; simpl; [|discriminate].
  intros Hs. exists col. split; [reflexivity|].
  destruct (entries d !! K) eqn:E; injection Hs as <-; simpl.
  - split; [intros _; apply lookup_insert_eq | discriminate].
  - split; [intros [? [=]] | intros _; apply lookup_insert_eq].
Qed.

(** After the loop over the columns, the entry of a name that occurs
    once, at position [length c1], is that column of the file. *)
Lemma store_columns_at file_data (c1 c2 : list string) (K : string) d0 d :
  K ∉ c1 -> K ∉ c2 ->
  for_each (store_column file_data) (imap pair (c1 ++ K :: c2)) d0 = Ok d ->
  exists col,
    column file_data (length c1) = Ok col
    /\ (is_Some (entries d0 !! K) -> entries d !! K = Some (Some col))
    /\ (entries d0 !! K = None -> prop d !! K = Some col).
Proof.
  intros Hc1 Hc2. rewrite imap_app, imap_cons, for_each_app.
  destruct (for_each (store_column file_data) (imap pair c1) d0)
    as [d1|e] eqn:E1; cbn [rbind for_each]; [|discriminate].
  rewrite Nat.add_0_r.
  destruct (store_column file_data (length c1, K) d1) as [d2|e] eqn:E2;
    cbn [rbind]; [|discriminate].
  intros E3.
  assert (Hnot : forall (g : nat -> nat) c, K ∉ c ->
            Forall (fun jn : nat * string => jn.2 <> K)
                   (imap (fun i => pair (g i)) c)).
  { intros g c Hc. apply Forall_forall. intros [j n] Hin.
    apply elem_of_lookup_imap in Hin as (i & y & [= -> ->] & Hy).
    simpl. intros ->. apply Hc. eapply list_elem_of_lookup_2, Hy. }
  destruct (store_columns_other file_data K _ d0 d1 (Hnot (fun i => i) c1 Hc1) E1)
    as [He1 Hp1].
  destruct (store_columns_other file_data K _ d2 d
              (Hnot (fun i => length c1 + S i) c2 Hc2) E3) as [He3 Hp3].
  destruct (store_column_same file_data _ K d1 d2 E2) as (col & Hcol & Hs & Hn).
  exists col. split; [assumption|]. rewrite He3, Hp3, <- He1. auto.
Qed.

Lemma phase_id_not_extra n : "phase_id" ∉ extra_columns n.
Proof.
  unfold extra_columns. intros Hin.
  apply list_elem_of_fmap in Hin as (i & Heq & _). discriminate Heq.
Qed.

(** Every schema the resolver returns has "phase_id" once, as its eighth
    name; the "tsl" schema has "ci" once, as its seventh. *)
Lemma vendor_columns_shape (header : list string) (n : nat) v names :
  _get_vendor_columns header n = (v, names) ->
  exists c1 c2,
    names = c1 ++ "phase_id" :: c2
    /\ length c1 = 7 /\ ("phase_id" ∉ c1) /\ ("phase_id" ∉ c2)
    /\ (v = tsl ->
        c1 = ["euler1"; "euler2"; "euler3"; "x"; "y"; "iq"] ++ ["ci"]
        /\ ("ci" ∉ c2)).
Proof.
  unfold _get_vendor_columns.
  destruct (negb (n =? length (column_names (detect_vendor header)))).
  - change (length (column_names unknown)) with 8.
    destruct (Nat.ltb 8 n); intros [= <- <-].
    + exists ["euler1"; "euler2"; "euler3"; "x"; "y"; "unknown1"; "unknown2"],
        (extra_columns (n - 8)).
      repeat split; try discriminate;
        [not_among | apply phase_id_not_extra].
    + exists ["euler1"; "euler2"; "euler3"; "x"; "y"; "unknown1"; "unknown2"], [].
      repeat split; try discriminate; not_among.
  - intros [= <- <-].
    destruct (detect_vendor header); simpl.
    + exists ["euler1"; "euler2"; "euler3"; "x"; "y"; "iq"; "ci"],
        ["unknown1"; "fit"; "unknown2"; "unknown3"; "unknown4"; "unknown5"].
      repeat split; not_among.
    + exists ["euler1"; "euler2"; "euler3"; "x"; "y"; "iq"; "dp"], [].
      repeat split; try discriminate; not_among.
    + exists ["euler1"; "euler2"; "euler3"; "x"; "y"; "ind"; "rel"], ["relx100"].
      repeat split; try discriminate; not_among.
    + exists ["euler1"; "euler2"; "euler3"; "x"; "y"; "unknown1"; "unknown2"], [].
      repeat split; try discriminate; not_among.
Qed.

Lemma column_length file_data (j : nat) col :
  column file_data j = Ok col -> length col = length (rows file_data).
Proof.
  unfold column. destruct (Nat.ltb j (n_cols file_data)); [|discriminate].
  intros [= <-]. apply length_map.
Qed.

Lemma broadcast_one {A : Type} (n : nat) (x : A) :
  broadcast n [x] = Ok (replicate n x).
Proof.
  unfold broadcast. destruct (Nat.eqb_spec (length [x]) n) as [<-|]; reflexivity.
Qed.

Lemma select_elem {A : Type} (mask : list bool) : forall (a : list A) (i : nat) v,
  mask !! i = Some true -> a !! i = Some v -> v ∈ select mask a.
Proof.
  induction mask as [|b m IH]; intros [|x a] [|i] v Hm Ha; try discriminate;
    simpl in *.
  - injection Hm as ->. injection Ha as ->. left.
  - destruct b; [right|]; eapply IH; eauto.
Qed.

(** [a[np.where(mask)] = x]: [x] where the mask holds, [a] elsewhere. *)
Lemma put_where_scalar {A : Type} (mask : list bool) (a : list A) (x : A) :
  length a = length mask ->
  exists a',
    setitem_ids a (where_ mask) [x] = Ok a'
    /\ length a' = length a
    /\ forall (i : nat) (b : bool), mask !! i = Some b ->
         a' !! i = if b then Some x else a !! i.
Proof.
  intros Hlen. unfold setitem_ids, where_.
  rewrite where_from_in_range by (simpl; lia).
  rewrite broadcast_one. simpl.
  destruct (put_where_from mask [] a
              (replicate (length (where_from 0 mask)) x) Hlen)
    as (a' & Hput & Hl & Hsel & Hfr); [simpl; now rewrite length_replicate|].
  simpl in Hput. rewrite Hput. exists a'. split; [reflexivity|].
  split; [assumption|].
  intros i b Hi. destruct b; [|now apply Hfr].
  destruct (a' !! i) as [v|] eqn:Ev.
  - pose proof (select_elem mask a' i v Hi Ev) as Hin.
    rewrite Hsel in Hin. apply elem_of_replicate in Hin as [-> _]. reflexivity.
  - apply lookup_ge_None in Ev. apply lookup_lt_Some in Hi. lia.
Qed.

Lemma vendor_eqb_eq (v w : vendor) : vendor_eqb v w = true <-> v = w.
Proof. destruct v, w; simpl; split; congruence. Qed.

Lemma mark_not_indexed_spec d d' (raw ci : list F) :
  entries d !! "phase_id" = Some (Some raw) ->
  prop d !! "ci" = Some ci ->
  length raw = length ci ->
  mark_not_indexed d = Ok d' ->
  exists ids,
    entries d' !! "phase_id" = Some (Some ids)
    /\ prop d' = prop d
    /\ length ids = length raw
    /\ forall (i : nat) (c : F), ci !! i = Some c ->
         ids !! i = if f_eqb c (f_of_Z (-1)) then Some (f_of_Z (-1))
                    else raw !! i.
Proof.
  intros Hraw Hci Hlen. unfold mark_not_indexed, array_entry, prop_entry.
  rewrite Hraw, Hci. cbn [rbind].
  destruct (put_where_scalar (map (fun c => f_eqb c (f_of_Z (-1))) ci) raw
              (f_of_Z (-1))) as (ids & Hset & Hl & Hids);
    [now rewrite length_map|].
  rewrite Hset. cbn [rbind]. intros [= <-]. exists ids. cbn [entries prop].
  split; [apply lookup_insert_eq|]. split; [reflexivity|].
  split; [assumption|].
  intros i c Hc. apply Hids. now rewrite list_lookup_fmap, Hc.
Qed.

(** C6.  When the vendor the reader works with is "tsl", every point whose
    "ci" value equals -1 gets the phase id -1 whatever the phase-id column
    of the file holds there, and every other point keeps the value of that
    column; for every other vendor the phase ids are the phase-id column
    of the file. *)
Theorem not_indexed_rule (file : list string) file_data
  (cm : crystal_map_args F) :
  file_reader file file_data = Ok cm ->
  exists raw,
    column file_data 7 = Ok raw
    /\ (fst (_get_vendor_columns (_get_header file) (n_cols file_data)) <> tsl ->
        phase_id cm = Some raw)
    /\ (fst (_get_vendor_columns (_get_header file) (n_cols file_data)) = tsl ->
        exists ci ids,
          column file_data 6 = Ok ci
          /\ properties cm !! "ci" = Some ci
          /\ phase_id cm = Some ids
          /\ length ids = length raw
          /\ forall (i : nat) (c : F), ci !! i = Some c ->
               ids !! i = if f_eqb c (f_of_Z (-1)) then Some (f_of_Z (-1))
                          else raw !! i).
Proof.
  unfold file_reader.
  destruct (_get_phases_from_header (_get_header file))
    as [[[[phase_ids phase_names] symmetries] lattice_constants]|e];
    cbn [rbind]; [|discriminate].
  destruct (_get_vendor_columns (_get_header file) (n_cols file_data))
    as [v names] eqn:Ev.
  destruct (vendor_columns_shape _ _ _ _ Ev)
    as (c1 & c2 & -> & Hc1 & Hn1 & Hn2 & Htsl).
  destruct (for_each (store_column file_data) (imap pair (c1 ++ "phase_id" :: c2))
              empty_data_dict) as [d1|e] eqn:Eloop; cbn [rbind]; [|discriminate].
  destruct (store_columns_at file_data c1 c2 "phase_id" _ d1 Hn1 Hn2 Eloop)
    as (raw & Hraw & Hentry & _).
  rewrite Hc1 in Hraw.
  specialize (Hentry ltac:(eexists; reflexivity)).
  cbn [fst].
  destruct (vendor_eqb v tsl) eqn:Hv; cbn [rbind].
  - apply vendor_eqb_eq in Hv. destruct (Htsl Hv) as [-> Hci2].
    assert (Hci1 : "ci" ∉ ["euler1"; "euler2"; "euler3"; "x"; "y"; "iq"])
      by not_among.
    assert (Hci3 : "ci" ∉ "phase_id" :: c2)
      by (apply not_elem_of_cons; split; [discriminate | exact Hci2]).
    rewrite <- app_assoc in Eloop.
    destruct (store_columns_at file_data _ _ "ci" _ d1 Hci1 Hci3 Eloop)
      as (ci & Hcol & _ & Hprop).
    specialize (Hprop ltac:(reflexivity)).
    destruct (mark_not_indexed d1) as [d2|e] eqn:Emark; cbn [rbind];
      [|discriminate].
    destruct (mark_not_indexed_spec d1 d2 raw ci Hentry Hprop) as
      (ids & Hids & Hp & Hl & Hrule); [|assumption|].
    { rewrite (column_length _ _ _ Hraw), (column_length _ _ _ Hcol).
      reflexivity. }
    destruct (array_entry d2 "euler1"); cbn [rbind]; [|discriminate].
    destruct (array_entry d2 "euler2"); cbn [rbind]; [|discriminate].
    destruct (array_entry d2 "euler3"); cbn [rbind]; [|discriminate].
    intros [= <-]. exists raw. split; [assumption|]. split; [congruence|].
    intros _. exists ci, ids. cbn [properties phase_id].
    rewrite Hp, Hids. auto.
  - destruct (array_entry d1 "euler1"); cbn [rbind]; [|discriminate].
    destruct (array_entry d1 "euler2"); cbn [rbind]; [|discriminate].
    destruct (array_entry d1 "euler3"); cbn [rbind]; [|discriminate].
    intros [= <-]. exists raw. split; [assumption|]. cbn [phase_id].
    split.
    + intros _. now rewrite Hentry.
    + intros ->. discriminate Hv.
Qed.

(** *** The reader returns *)



Lemma vendor_columns_length (header : list string) (n : nat) v names :
  _get_vendor_columns header n = (v, names) -> 8 <= n -> length names = n.
Proof.
  unfold _get_vendor_columns.
  destruct (Nat.eqb_spec n (length (column_names (detect_vendor header))))
    as [Heq|Hne]; cbn [negb].
  - intros [= <- <-] _. congruence.
  - change (length (column_names unknown)) with 8.
    destruct (Nat.ltb_spec 8 n); intros [= <- <-] Hn.
    + cbn [length]. rewrite extra_columns_length. lia.
    + simpl. lia.
Qed.



End ReaderFacts.

Section ReaderExamples.
Import Ang Sample.

(** The scenario of the specification: confidence index -1 and phase id 3
    in the file give phase id -1; the other point keeps its 3. *)
Example tsl_not_indexed_scenario :
  fst (_get_vendor_columns (_get_header tsl_file) 14) = tsl
  /\ column tsl_table 7 = Ok [3; 3]%Q
  /\ (phase_id <$> (match file_reader tsl_file tsl_table with
                    | Ok cm => Some cm
                    | Raise _ => None
                    end)) = Some (Some [-1; 3]%Q).
Proof. repeat split; vm_compute; reflexivity. Qed.

Lemma not_indexed_rule_witness :
  exists cm,
    file_reader tsl_file tsl_table = Ok cm
    /\ exists raw,
      column tsl_table 7 = Ok raw
      /\ (fst (_get_vendor_columns (_get_header tsl_file) (n_cols tsl_table))
          <> tsl -> phase_id cm = Some raw)
      /\ (fst (_get_vendor_columns (_get_header tsl_file) (n_cols tsl_table))
          = tsl ->
          exists ci ids,
            column tsl_table 6 = Ok ci
            /\ properties cm !! "ci" = Some ci
            /\ phase_id cm = Some ids
            /\ length ids = length raw
            /\ forall (i : nat) (c : Q), ci !! i = Some c ->
                 ids !! i = if f_eqb c (f_of_Z (-1)) then Some (f_of_Z (-1))
                            else raw !! i).
Proof.
  destruct (file_reader tsl_file tsl_table) as [cm|e] eqn:E;
    [|vm_compute in E; discriminate E].
  exists cm. split; [reflexivity|].
  exact (not_indexed_rule tsl_file tsl_table cm E).
Defined.
End ReaderExamples.

(** ** The writer *)

Section WriterFacts.
Import Ang.
Context {F : Type} `{Float64 F}.
Variable version : string.
Implicit Types (crystal_map : CrystalMap F).

(** C8.  A crystal map with more than two dimensions makes the writer
    raise [ValueError], and the files are what they were before the
    call. *)
Theorem three_dimensions_rejected (files : gmap string (saved F))
  (filename : string) crystal_map
  (image_quality_prop confidence_index_prop sem_signal_prop pattern_fit_prop
     : option string) :
  2 < ndim crystal_map ->
  file_writer version files filename crystal_map image_quality_prop
    confidence_index_prop sem_signal_prop pattern_fit_prop
  = (files, Raised ValueError).
Proof.
  intros Hdim. unfold file_writer, prepare.
  now rewrite (proj2 (Nat.ltb_lt _ _) Hdim).
Qed.

Lemma append_assoc (a b c : string) : (a +:+ b) +:+ c = a +:+ b +:+ c.
Proof.
  induction a as [|x a IH]; [reflexivity|].
  change (String x ((a +:+ b) +:+ c) = String x (a +:+ b +:+ c)).
  now f_equal.
Qed.

Lemma append_empty_r (a : string) : a +:+ "" = a.
Proof.
  induction a as [|x a IH]; [reflexivity|].
  change (String x (a +:+ "") = String x a). now f_equal.
Qed.

Lemma concat_cons (a : string) (l : list string) :
  String.concat "" (a :: l) = a +:+ String.concat "" l.
Proof. destruct l; simpl; [now rewrite append_empty_r | reflexivity]. Qed.

Lemma concat_app (l1 l2 : list string) :
  String.concat "" (l1 ++ l2) = String.concat "" l1 +:+ String.concat "" l2.
Proof.
  induction l1 as [|a l1 IH]; [reflexivity|].
  rewrite <- app_comm_cons, !concat_cons, IH. now rewrite append_assoc.
Qed.

(** The loop over the phases appends their texts in order. *)
Lemma phases_loop (l : list (Z * Phase F)) : forall header : string,
  fold_left (fun header '(phase_id, phase) => header +:+ phase_text phase_id phase)
    l header
  = header +:+ String.concat "" (map (fun ip => phase_text ip.1 ip.2) l).
Proof.
  induction l as [|[i ph] l IH]; intros header.
  - simpl. now rewrite append_empty_r.
  - cbn [fold_left map]. rewrite IH, concat_cons, append_assoc. reflexivity.
Qed.

(** C10.  For every phase of the crystal map the header holds, after the
    texts of the phases before it and its "Phase" line, the line
    "MaterialName" with the name of the phase followed by the line
    "Formula" with the same name; no other attribute of the phase reaches
    the "Formula" line. *)
Theorem formula_line_repeats_name crystal_map (header : string) :
  _get_ang_header version crystal_map = Ok header ->
  forall (i : nat) (phase_id : Z) (phase : Phase F),
    phases crystal_map !! i = Some (phase_id, phase) ->
    exists before after : string,
      header
      = before
        +:+ "MaterialName    " +:+ name phase +:+ nl
        +:+ "Formula    " +:+ name phase +:+ nl
        +:+ after
      /\ before
         = microscope_text
           +:+ String.concat ""
                 (map (fun ip => phase_text ip.1 ip.2) (take i (phases crystal_map)))
           +:+ "Phase " +:+ Str.of_Z phase_id +:+ nl
      /\ String.prefix ("Info" +:+ nl) after = true.
Proof.
  unfold _get_ang_header.
  destruct (_get_nrows_ncols_step_sizes crystal_map) as [[[[nrows ncols] ?] ?]|e];
    cbn [rbind]; [|discriminate].
  intros [= <-] i phase_id phase Hi.
  rewrite phases_loop.
  pose proof (take_drop_middle _ _ _ Hi) as Hsplit.
  set (earlier := take i (phases crystal_map)) in *.
  set (later := drop (S i) (phases crystal_map)) in *.
  rewrite <- Hsplit.
  rewrite map_app, concat_app. cbn [map]. rewrite concat_cons. cbn [fst snd].
  unfold phase_text at 2.
  eexists _, _. split; [|split; [reflexivity|]].
  - rewrite !append_assoc. reflexivity.
  - reflexivity.
Qed.

(** *** The property columns *)


Lemma set_column_length (j : nat) (prop : list F) (arr : list (list F)) :
  length prop = length arr -> length (set_column j prop arr) = length arr.
Proof. intros Hl. unfold set_column. rewrite length_zip_with. lia. Qed.

Lemma set_column_rows (j : nat) (prop : list F) (arr : list (list F)) (w : nat) :
  Forall (fun row => length row = w) arr ->
  Forall (fun row => length row = w) (set_column j prop arr).
Proof.
  unfold set_column. intros Harr. revert prop.
  induction Harr as [|row arr Hrow Harr IH]; intros [|v prop]; simpl;
    try constructor; [now rewrite length_insert | apply IH].
Qed.

Lemma set_column_same (j : nat) (prop : list F) (arr : list (list F)) (w : nat) :
  length prop = length arr ->
  Forall (fun row => length row = w) arr -> j < w ->
  get_column j (set_column j prop arr) = map f_single prop.
Proof.
  unfold set_column, get_column. intros Hl Harr Hj. revert prop Hl.
  induction Harr as [|row arr Hrow Harr IH]; intros [|v prop] Hl;
    try discriminate; [reflexivity|].
  simpl. f_equal; [|apply IH; simpl in Hl; lia].
  now rewrite nth_lookup, list_lookup_insert_eq by lia.
Qed.

Lemma set_column_other (j k : nat) (prop : list F) (arr : list (list F)) :
  length prop = length arr -> k <> j ->
  get_column k (set_column j prop arr) = get_column k arr.
Proof.
  unfold set_column, get_column. intros Hl Hk. revert prop Hl.
  induction arr as [|row arr IH]; intros [|v prop] Hl; try discriminate;
    [reflexivity|].
  simpl. f_equal; [|apply IH; simpl in Hl; lia].
  now rewrite !nth_lookup, list_lookup_insert_ne by congruence.
Qed.

(** One round of the loop in [_get_prop_arrays]: column [j] receives the
    property found for it, if one is found, and no other column changes. *)
Lemma prop_arrays_round crystal_map (prop_names : list string)
  (map_size decimals j : nat) (name : option string) (names : list string)
  (arr arr' : list (list F)) :
  (let* prop :=
     _get_prop_array crystal_map name names prop_names
       (map lower_no_underscore prop_names) map_size decimals (f_of_Z 0) in
   match prop with
   | Some prop =>
       let* prop := reshape1 map_size prop in
       Ok (set_column j prop arr)
   | None => Ok arr
   end) = Ok arr' ->
  length arr = map_size -> Forall (fun row => length row = 4) arr -> j < 4 ->
  length arr' = map_size
  /\ Forall (fun row => length row = 4) arr'
  /\ (exists prop,
        _get_prop_array crystal_map name names prop_names
          (map lower_no_underscore prop_names) map_size decimals (f_of_Z 0)
        = Ok prop
        /\ get_column j arr'
           = match prop with
             | Some prop => map f_single prop
             | None => get_column j arr
             end)
  /\ forall k : nat, k <> j -> get_column k arr' = get_column k arr.
Proof.
  destruct (_get_prop_array _ _ _ _ _ _ _ _) as [[prop|]|e]; cbn [rbind];
    [| |discriminate].
  - unfold reshape1. destruct (Nat.eqb_spec (length prop) map_size) as [Hp|];
      cbn [rbind]; [|discriminate].
    intros [= <-] Hl Hrows Hj.
    assert (Hpl : length prop = length arr) by congruence.
    split; [rewrite set_column_length; assumption|].
    split; [now apply set_column_rows|].
    split; [|intros k Hk; now apply set_column_other].
    exists (Some prop). split; [reflexivity|].
    now apply (set_column_same j prop arr 4).
  - intros [= <-] Hl Hrows Hj. repeat split; try assumption.
    exists None. split; reflexivity.
Qed.

Lemma get_column_zeros (j map_size : nat) :
  get_column j (replicate map_size (replicate 4 (f_of_Z 0)))
  = replicate map_size (f_of_Z 0).
Proof.
  unfold get_column. induction map_size as [|n IH]; [reflexivity|].
  cbn [replicate map]. f_equal; [|exact IH].
  do 4 (destruct j as [|j]; [reflexivity|]). destruct j; reflexivity.
Qed.

(** The four columns of [_get_prop_arrays]: column [j] holds the property
    found for the [j]-th wanted name with the [j]-th list of aliases,
    passed through float32, or zeros when none is found. *)
Lemma prop_arrays_columns crystal_map (prop_names : list string)
  (p0 p1 p2 p3 : option string) (map_size decimals : nat)
  (prop_arrays : list (list F)) :
  _get_prop_arrays crystal_map prop_names [p0; p1; p2; p3] map_size decimals
  = Ok prop_arrays ->
  length prop_arrays = map_size
  /\ Forall (fun row => length row = 4) prop_arrays
  /\ forall (j : nat) (name : option string) (names : list string),
       [p0; p1; p2; p3] !! j = Some name ->
       all_expected_prop_names !! j = Some names ->
       exists prop,
         _get_prop_array crystal_map name names prop_names
           (map lower_no_underscore prop_names) map_size decimals (f_of_Z 0)
         = Ok prop
         /\ get_column j prop_arrays
            = match prop with
              | Some prop => map f_single prop
              | None => replicate map_size (f_of_Z 0)
              end.
Proof.
  unfold _get_prop_arrays.
  match goal with
  | |- for_each ?b _ ?a = _ -> _ => set (body := b); set (arr0 := a)
  end.
  change (imap pair (zip [p0; p1; p2; p3] all_expected_prop_names))
    with [(0, (p0, ["iq"; "image_quality"; "imagequality"]));
          (1, (p1, ["ci"; "confidence_index"; "confidenceindex"]));
          (2, (p2, ["ss"; "sem_signal"; "semsignal"]));
          (3, (p3, ["fit"; "pattern_fit"; "patternfit"]))].
  cbn [for_each].
  destruct (body (0, (p0, _)) arr0) as [arr1|e] eqn:E0; cbn [rbind]; [|discriminate].
  destruct (body (1, (p1, _)) arr1) as [arr2|e] eqn:E1; cbn [rbind]; [|discriminate].
  destruct (body (2, (p2, _)) arr2) as [arr3|e] eqn:E2; cbn [rbind]; [|discriminate].
  destruct (body (3, (p3, _)) arr3) as [arr4|e] eqn:E3; cbn [rbind]; [|discriminate].
  intros [= <-].
  assert (Hl0 : length arr0 = map_size) by apply length_replicate.
  assert (Hr0 : Forall (fun row : list F => length row = 4) arr0).
  { apply Forall_replicate. apply length_replicate. }
  destruct (prop_arrays_round _ _ _ _ 0 _ _ _ _ E0 Hl0 Hr0 ltac:(lia))
    as (Hl1 & Hr1 & (q0 & Hq0 & Hc0) & Ho0).
  destruct (prop_arrays_round _ _ _ _ 1 _ _ _ _ E1 Hl1 Hr1 ltac:(lia))
    as (Hl2 & Hr2 & (q1 & Hq1 & Hc1) & Ho1).
  destruct (prop_arrays_round _ _ _ _ 2 _ _ _ _ E2 Hl2 Hr2 ltac:(lia))
    as (Hl3 & Hr3 & (q2 & Hq2 & Hc2) & Ho2).
  destruct (prop_arrays_round _ _ _ _ 3 _ _ _ _ E3 Hl3 Hr3 ltac:(lia))
    as (Hl4 & Hr4 & (q3 & Hq3 & Hc3) & Ho3).
  split; [assumption|]. split; [assumption|].
  intros j name names Hname Hnames.
  destruct j as [|[|[|[|j]]]]; try discriminate Hname;
    injection Hname as <-; injection Hnames as <-;
    [exists q0 | exists q1 | exists q2 | exists q3];
    (split; [assumption|]).
  - rewrite Ho3, Ho2, Ho1, Hc0 by lia.
    destruct q0; [reflexivity | apply get_column_zeros].
  - rewrite Ho3, Ho2, Hc1 by lia.
    destruct q1; [reflexivity|]. rewrite Ho0 by lia. apply get_column_zeros.
  - rewrite Ho3, Hc2 by lia.
    destruct q2; [reflexivity|]. rewrite Ho1, Ho0 by lia. apply get_column_zeros.
  - rewrite Hc3.
    destruct q3; [reflexivity|].
    rewrite Ho2, Ho1, Ho0 by lia. apply get_column_zeros.
Qed.

(** *** The table handed to [np.savetxt] *)






End WriterFacts.

Section WriterExamples.
Import Ang Sample.

(** The scenario of the specification: a crystal map with three
    dimensions is refused and no file appears. *)
Lemma three_dimensions_rejected_witness :
  file_writer "0.4" ∅ "out.ang" (grid_map 3 [2; 2; 1]) None None None None
  = (∅, Raised ValueError).
Proof.
  apply (three_dimensions_rejected "0.4" ∅ "out.ang" (grid_map 3 [2; 2; 1])).
  simpl. lia.
Defined.

Example header_of_grid_map :
  _get_ang_header "0.4" (grid_map 2 [2; 2])
  = Ok ("TEM_PIXperUM           1.000000" +:+ nl
        +:+ "x-star                 0.000000" +:+ nl
        +:+ "y-star                 0.000000" +:+ nl
        +:+ "z-star                 0.000000" +:+ nl
        +:+ "WorkingDistance        0.000000" +:+ nl
        +:+ nl
        +:+ "Phase 1" +:+ nl
        +:+ "MaterialName    Al" +:+ nl
        +:+ "Formula    Al" +:+ nl
        +:+ "Info" +:+ nl
        +:+ "Symmetry    m-3m" +:+ nl
        +:+ "LatticeConstants    4.040 4.040 4.040 90.000 90.000 90.000" +:+ nl
        +:+ "NumberFamilies    0" +:+ nl
        +:+ "GRID: SqrGrid" +:+ nl
        +:+ "XSTEP: 1.000000" +:+ nl
        +:+ "YSTEP: 1.000000" +:+ nl
        +:+ "NCOLS_ODD: 2" +:+ nl
        +:+ "NCOLS_EVEN: 2" +:+ nl
        +:+ "NROWS: 2" +:+ nl
        +:+ nl
        +:+ "OPERATOR: orix 0.4" +:+ nl
        +:+ nl
        +:+ "SAMPLEID:" +:+ nl
        +:+ nl
        +:+ "SCANID:" +:+ nl).
Proof. vm_compute. reflexivity. Qed.

Lemma formula_line_repeats_name_witness :
  exists header : string,
    _get_ang_header "0.4" (grid_map 2 [2; 2]) = Ok header
    /\ forall (i : nat) (phase_id : Z) (phase : Phase Q),
         phases (grid_map 2 [2; 2]) !! i = Some (phase_id, phase) ->
         exists before after : string,
           header
           = before
             +:+ "MaterialName    " +:+ name phase +:+ nl
             +:+ "Formula    " +:+ name phase +:+ nl
             +:+ after
           /\ before
              = microscope_text
                +:+ String.concat ""
                      (map (fun ip => phase_text ip.1 ip.2)
                           (take i (phases (grid_map 2 [2; 2]))))
                +:+ "Phase " +:+ Str.of_Z phase_id +:+ nl
           /\ String.prefix ("Info" +:+ nl) after = true.
Proof.
  eexists. split; [vm_compute; reflexivity|].
  apply (formula_line_repeats_name "0.4" (grid_map 2 [2; 2])).
  vm_compute. reflexivity.
Defined.

(** The table written for the sample map: four rows, the ninth entry the
    SEM signal (700), the tenth the pattern fit (9). *)
Example table_of_grid_map :
  (fun out => (X out, fmt out))
    <$> (fst (file_writer "0.4" ∅ "out.ang" (grid_map 2 [2; 2])
                None None None None) !! "out.ang")
  = Some ([[0; 0; 0; 0; 0; 5; 1 # 2; 1; 700; 9];
           [0; 0; 0; 1; 0; 5; 1 # 2; 1; 700; 9];
           [0; 0; 0; 0; 1; 5; 1 # 2; 1; 700; 9];
           [0; 0; 0; 1; 1; 5; 1 # 2; 1; 700; 9]]%Q,
          [fixed 8 5; fixed 8 5; fixed 8 5; fixed 7 5; fixed 7 5; fixed 7 5;
           fixed 7 5; integer; fixed 9 5; fixed 7 5]).
Proof. vm_compute. reflexivity. Qed.


End WriterExamples.

(** ** More on the masked property store *)

Section StoreMore.
Import Numpy Props.
Context {F : Type} `{Float64 F}.
Implicit Types (s : store F) (l a : list (scalar F)) (t : dtype).

Lemma select_all_true {A : Type} (a : list A) :
  select (replicate (length a) true) a = a.
Proof. induction a as [|x a IH]; simpl; [reflexivity | now rewrite IH]. Qed.

(** X1.  A store made without a mask reads every array of the right size back
    whole. *)
Theorem init_reads_whole_array (dictionary : gmap string (list (scalar F)))
  (ids : list nat) (key : string) a :
  dictionary !! key = Some a ->
  length a = length ids ->
  __getitem__ (__init__ dictionary ids None) key = Ok a.
Proof.
  intros Hkey Hlen. unfold __getitem__, __init__. cbn [dict is_in_data].
  rewrite Hkey. unfold getitem_mask.
  rewrite length_replicate, <- Hlen, Nat.eqb_refl, select_all_true.
  reflexivity.
Qed.

(** The [j]-th selected entry is the entry at the [j]-th [True]
    position. *)
Lemma select_where_from {A : Type} (mask : list bool) :
  forall (a : list A) (k j i : nat),
    where_from k mask !! j = Some i ->
    select mask a !! j = a !! (i - k).
Proof.
  induction mask as [|b m IH]; intros a k j i Hj; [discriminate|].
  destruct a as [|x a].
  - destruct b; simpl; now rewrite lookup_nil.
  - simpl in *. destruct b.
    + destruct j as [|j]; simpl in Hj.
      * injection Hj as <-. now rewrite Nat.sub_diag.
      * pose proof (where_from_bound (S k) m i
                      (list_elem_of_lookup_2 _ _ _ Hj)) as Hb.
        simpl. rewrite (IH a (S k) j i Hj).
        replace (i - k) with (S (i - S k)) by lia. reflexivity.
    + pose proof (where_from_bound (S k) m i
                    (list_elem_of_lookup_2 _ _ _ Hj)) as Hb.
      rewrite (IH a (S k) j i Hj).
      replace (i - k) with (S (i - S k)) by lia. reflexivity.
Qed.

(** X2.  A successful read returns, for an array that has one entry per point,
    the entries at the points in the data and nothing else, in ascending
    order of the point id. *)
Theorem getitem_values s (item : string) l :
  __getitem__ s item = Ok l ->
  exists a,
    dict s !! item = Some a
    /\ length a = length (is_in_data s)
    /\ length l = length (where_ (is_in_data s))
    /\ forall j i : nat,
         where_ (is_in_data s) !! j = Some i -> l !! j = a !! i.
Proof.
  unfold __getitem__, getitem_mask.
  destruct (dict s !! item) as [a|]; [|discriminate].
  destruct (Nat.eqb_spec (length (is_in_data s)) (length a)) as [Hl|];
    [|discriminate].
  intros [= <-]. exists a. split; [reflexivity|]. split; [congruence|].
  split; [apply select_length; congruence|].
  intros j i Hj. unfold where_ in Hj.
  rewrite (select_where_from _ a 0 j i Hj). now rewrite Nat.sub_0_r.
Qed.

(** What a failed write leaves behind. *)
Lemma setitem_raised s (key : string) (value : pyvalue F) s' e :
  __setitem__ s key value = (s', Raised e) ->
  dict s' = <[key := array_before s key]> (dict s)
  /\ id s' = id s /\ is_in_data s' = is_in_data s.
Proof.
  unfold __setitem__, setdefault, array_before.
  destruct (dict s !! key) as [a|] eqn:E; simpl;
    (destruct (value_type value) as [t|e0];
     [destruct (setitem_ids _ _ _); [discriminate|]|]);
    intros [= <- _]; simpl; repeat split; auto;
    symmetry; now apply insert_id.
Qed.

(** X3.  A write that raises changes no stored value: every array that was in
    the store is still there as it was, and the only thing that may have
    appeared is a new array of zeros under the key of the write. *)
Theorem failed_write_keeps_values s (key : string) (value : pyvalue F) s' e :
  __setitem__ s key value = (s', Raised e) ->
  (forall (k : string) a, dict s !! k = Some a -> dict s' !! k = Some a)
  /\ (dict s !! key = None ->
      dict s' !! key = Some (zeros (length (is_in_data s))))
  /\ (forall k : string, k <> key -> dict s' !! k = dict s !! k)
  /\ id s' = id s /\ is_in_data s' = is_in_data s.
Proof.
  intros Hset. destruct (setitem_raised _ _ _ _ _ Hset) as (Hd & Hi & Hm).
  rewrite Hd. unfold array_before. repeat split; try assumption.
  - intros k a Hk. destruct (decide (key = k)) as [->|Hne].
    + rewrite lookup_insert_eq, Hk. reflexivity.
    + now rewrite lookup_insert_ne.
  - intros Hnone. now rewrite lookup_insert_eq, Hnone.
  - intros k Hk. apply lookup_insert_ne. congruence.
Qed.

Lemma setitem_done_iff s (key : string) (value : pyvalue F) :
  snd (__setitem__ s key value) = Done
  <-> entries value <> []
      /\ Forall (fun i => i < length (array_before s key)) (id s)
      /\ (length (entries value) = length (id s)
          \/ length (entries value) = 1).
Proof.
  unfold __setitem__, setdefault, array_before.
  assert (Hin : forall (a : list (scalar F)) t,
            forallb (fun i => i <? length (astype t a)) (id s) = true
            <-> Forall (fun i => i < length a) (id s)).
  { intros a t. unfold astype. rewrite length_map, forallb_forall, Forall_forall.
    split; intros Hall i Hi.
    - apply Nat.ltb_lt, Hall, list_elem_of_In, Hi.
    - apply Nat.ltb_lt, Hall, list_elem_of_In, Hi. }
  assert (Hvt : forall v : pyvalue F,
            (exists t, value_type v = Ok t /\ entries v <> [])
            \/ (value_type v = Raise IndexError /\ entries v = [])).
  { intros [x|[|x l]]; simpl.
    - left. exists (type_of x). split; [reflexivity | discriminate].
    - right. split; reflexivity.
    - left. exists (type_of x). split; [reflexivity | discriminate]. }
  assert (Hcase : forall a : list (scalar F),
            snd (match value_type value with
                 | Ok vt =>
                     match setitem_ids (astype vt a) (id s)
                             (map (cast vt) (entries value)) with
                     | Ok array => (with_dict s (<[key:=array]> (dict s)), Done)
                     | Raise e => (s, Raised e)
                     end
                 | Raise e => (s, Raised e)
                 end) = Done
            <-> entries value <> []
                /\ Forall (fun i => i < length a) (id s)
                /\ (length (entries value) = length (id s)
                    \/ length (entries value) = 1)).
  { intros a. destruct (Hvt value) as [(t & -> & Hne)|[-> Hnil]].
    - unfold setitem_ids. specialize (Hin a t).
      destruct (forallb _ (id s)).
      + unfold broadcast. rewrite length_map.
        destruct (Nat.eqb_spec (length (entries value)) (length (id s)))
          as [Heq|Hneq]; simpl.
        * split; [intros _|reflexivity].
          split; [assumption|]. split; [now apply Hin | now left].
        * destruct (entries value) as [|x [|y l]] eqn:El; simpl.
          -- congruence.
          -- split; [intros _|reflexivity].
             split; [discriminate|]. split; [now apply Hin | now right].
          -- split; [discriminate|]. intros (_ & _ & [Hc|Hc]); simpl in *; lia.
      + simpl. split; [discriminate|]. intros (_ & Hall & _).
        apply Hin in Hall. discriminate.
    - simpl. split; [discriminate|]. intros [Hc _]. contradiction. }
  destruct (dict s !! key) as [a|] eqn:E; simpl.
  - apply Hcase.
  - rewrite <- (Hcase (zeros (length (is_in_data s)))).
    destruct (value_type value); [|reflexivity].
    destruct (setitem_ids _ _ _); reflexivity.
Qed.


(** The dictionary after any write, whatever its outcome. *)
Lemma setitem_dict s (key : string) (value : pyvalue F) s' o :
  __setitem__ s key value = (s', o) ->
  id s' = id s /\ is_in_data s' = is_in_data s
  /\ exists a',
       dict s' = <[key := a']> (dict s)
       /\ length a' = length (array_before s key).
Proof.
  destruct o as [|e]; intros Hset.
  - destruct (setitem_done _ _ _ _ Hset) as (t & vs & _ & _ & Hd & Hi & Hm).
    repeat split; try assumption. eexists. split; [exact Hd|].
    rewrite put_length. unfold astype. apply length_map.
  - destruct (setitem_raised _ _ _ _ _ Hset) as (Hd & Hi & Hm).
    repeat split; try assumption. eexists. split; [exact Hd | reflexivity].
Qed.

(** X5.  If every array has one entry per point, so it is after a write,
    whether the write succeeds or raises; the ids and the mask are never
    changed by a write. *)
Theorem write_keeps_arrays_full_size s (key : string) (value : pyvalue F) s' o :
  (forall (k : string) a, dict s !! k = Some a ->
     length a = length (is_in_data s)) ->
  __setitem__ s key value = (s', o) ->
  (forall (k : string) a, dict s' !! k = Some a ->
     length a = length (is_in_data s'))
  /\ id s' = id s /\ is_in_data s' = is_in_data s.
Proof.
  intros Hfull Hset.
  destruct (setitem_dict _ _ _ _ _ Hset) as (Hi & Hm & a' & Hd & Hl).
  split; [|now split]. intros k a. rewrite Hd, Hm.
  destruct (decide (key = k)) as [->|Hne].
  - rewrite lookup_insert_eq. intros [= <-]. rewrite Hl.
    apply array_before_length. intros b Hb. now apply (Hfull k).
  - rewrite lookup_insert_ne by assumption. apply Hfull.
Qed.

(** X6.  A write under one key does not change what is read under another
    key, whether the write succeeds or raises. *)
Theorem write_leaves_other_reads s (key item : string) (value : pyvalue F) s' o :
  __setitem__ s key value = (s', o) ->
  item <> key ->
  __getitem__ s' item = __getitem__ s item.
Proof.
  intros Hset Hne.
  destruct (setitem_dict _ _ _ _ _ Hset) as (_ & Hm & a' & Hd & _).
  unfold __getitem__. rewrite Hd, Hm, lookup_insert_ne by congruence.
  reflexivity.
Qed.

(** Reading after a successful write in a store whose ids follow the
    mask. *)
Lemma read_after_write s (key : string) (value : pyvalue F) s' :
  ids_follow_mask s -> full_size s key ->
  __setitem__ s key value = (s', Done) ->
  exists t vs,
    value_type value = Ok t
    /\ broadcast (length (id s)) (map (cast t) (entries value)) = Ok vs
    /\ __getitem__ s' key = Ok vs.
Proof.
  intros Hid Hfull Hset.
  destruct (setitem_done _ _ _ _ Hset) as (t & vs & Ht & Hb & Hd & Hi & Hm).
  exists t, vs. split; [assumption|]. split; [assumption|].
  assert (Hvs : length vs = length (id s)).
  { unfold broadcast in Hb.
    destruct (Nat.eqb_spec (length (map (cast t) (entries value))) (length (id s)))
      as [Heq|_].
    - now injection Hb as <-.
    - destruct (map (cast t) (entries value)) as [|x [|]]; try discriminate.
      injection Hb as <-. apply length_replicate. }
  unfold __getitem__. rewrite Hd, lookup_insert_eq, Hm.
  unfold getitem_mask. rewrite put_length. unfold astype.
  rewrite length_map, (array_before_length _ _ Hfull), Nat.eqb_refl.
  unfold ids_follow_mask in Hid. rewrite Hid in *. f_equal.
  apply put_where; [|assumption].
  rewrite length_map. now apply array_before_length.
Qed.

(** X7.  In a store whose ids follow the mask, a successful write is read back
    as the written values converted to the type of the first of them, a
    single value being repeated for every point in the data. *)
Theorem read_returns_converted_values s (key : string) (value : pyvalue F) s' :
  ids_follow_mask s -> full_size s key ->
  __setitem__ s key value = (s', Done) ->
  exists t,
    value_type value = Ok t
    /\ __getitem__ s' key
       = Ok (if Nat.eqb (length (entries value)) (length (id s))
             then map (cast t) (entries value)
             else replicate (length (id s))
                    (cast t (hd (SInt 0) (entries value)))).
Proof.
  intros Hid Hfull Hset.
  destruct (read_after_write _ _ _ _ Hid Hfull Hset) as (t & vs & Ht & Hb & Hg).
  exists t. split; [assumption|]. rewrite Hg. f_equal.
  unfold broadcast in Hb. rewrite length_map in Hb.
  destruct (Nat.eqb (length (entries value)) (length (id s))).
  - now injection Hb as <-.
  - destruct (entries value) as [|x [|]]; try discriminate.
    now injection Hb as <-.
Qed.


(** X9.  Two writes under one key in a store whose ids follow the mask: after
    the second has succeeded, a read returns what it would return had the
    first write never been made. *)
Theorem later_write_wins s (key : string) (v1 v2 : pyvalue F) s1 o1 s2 :
  ids_follow_mask s ->
  (forall (k : string) a, dict s !! k = Some a ->
     length a = length (is_in_data s)) ->
  __setitem__ s key v1 = (s1, o1) ->
  __setitem__ s1 key v2 = (s2, Done) ->
  exists s2',
    __setitem__ s key v2 = (s2', Done)
    /\ __getitem__ s2 key = __getitem__ s2' key.
Proof.
  intros Hid Hfull H1 H2.
  destruct (setitem_dict _ _ _ _ _ H1) as (Hi1 & Hm1 & a1 & Hd1 & Hl1).
  assert (Hf : full_size s key) by (intros b Hb; now apply (Hfull key)).
  assert (Hf1 : full_size s1 key).
  { intros b. rewrite Hd1, lookup_insert_eq, Hm1. intros [= <-].
    rewrite Hl1. now apply array_before_length. }
  assert (Hid1 : ids_follow_mask s1).
  { unfold ids_follow_mask in *. now rewrite Hi1, Hm1. }
  destruct (__setitem__ s key v2) as [s2' o2] eqn:H2'.
  assert (Ho : o2 = Done).
  { change o2 with (snd (s2', o2)). rewrite <- H2'.
    apply setitem_done_iff.
    assert (Hdone : snd (__setitem__ s1 key v2) = Done) by now rewrite H2.
    apply setitem_done_iff in Hdone.
    rewrite (array_before_length _ _ Hf1), Hm1, Hi1 in Hdone.
    now rewrite (array_before_length _ _ Hf). }
  subst o2. exists s2'. split; [reflexivity|].
  destruct (read_after_write _ _ _ _ Hid1 Hf1 H2) as (t & vs & Ht & Hb & Hg).
  destruct (read_after_write _ _ _ _ Hid Hf H2') as (t' & vs' & Ht' & Hb' & Hg').
  rewrite Hg, Hg'. rewrite Hi1 in Hb. congruence.
Qed.
End StoreMore.

Section StoreMoreExamples.
Import Numpy Props Sample.

Lemma init_reads_whole_array_witness :
  __getitem__
    (__init__ {[ "iq" := int_seq [7; 8; 9]%Z ]} [0; 1; 2] None) "iq"
  = Ok (int_seq [7; 8; 9]%Z).
Proof.
  apply (init_reads_whole_array {[ "iq" := int_seq [7; 8; 9]%Z ]} [0; 1; 2] "iq");
    reflexivity.
Defined.

Lemma getitem_values_witness :
  exists a,
    dict store3 !! "iq" = Some a
    /\ length a = length (is_in_data store3)
    /\ length [SFloat (1 # 2); SFloat (1 # 2)] = length (where_ (is_in_data store3))
    /\ forall j i : nat,
         where_ (is_in_data store3) !! j = Some i ->
         [SFloat (1 # 2); SFloat (1 # 2)] !! j = a !! i.
Proof.
  apply (getitem_values store3 "iq" [SFloat (1 # 2); SFloat (1 # 2)]).
  reflexivity.
Defined.

(** Three values for two ids: the write raises, the stored array stays. *)
Lemma failed_write_keeps_values_witness :
  (forall (k : string) a, dict store3 !! k = Some a ->
     dict (fst (__setitem__ store3 "iq" (PSeq (int_seq [1; 2; 3]%Z)))) !! k
     = Some a)
  /\ (dict store3 !! "iq" = None ->
      dict (fst (__setitem__ store3 "iq" (PSeq (int_seq [1; 2; 3]%Z)))) !! "iq"
      = Some (zeros (length (is_in_data store3))))
  /\ (forall k : string, k <> "iq" ->
      dict (fst (__setitem__ store3 "iq" (PSeq (int_seq [1; 2; 3]%Z)))) !! k
      = dict store3 !! k)
  /\ id (fst (__setitem__ store3 "iq" (PSeq (int_seq [1; 2; 3]%Z)))) = id store3
  /\ is_in_data (fst (__setitem__ store3 "iq" (PSeq (int_seq [1; 2; 3]%Z))))
     = is_in_data store3.
Proof.
  apply (failed_write_keeps_values store3 "iq" (PSeq (int_seq [1; 2; 3]%Z))
           (fst (__setitem__ store3 "iq" (PSeq (int_seq [1; 2; 3]%Z))))
           ValueError).
  vm_compute. reflexivity.
Defined.

Lemma write_keeps_arrays_full_size_witness :
  (forall (k : string) a,
     dict (fst (__setitem__ store3 "ci" (PSeq (int_seq [1; 2]%Z)))) !! k = Some a ->
     length a
     = length (is_in_data (fst (__setitem__ store3 "ci" (PSeq (int_seq [1; 2]%Z))))))
  /\ id (fst (__setitem__ store3 "ci" (PSeq (int_seq [1; 2]%Z)))) = id store3
  /\ is_in_data (fst (__setitem__ store3 "ci" (PSeq (int_seq [1; 2]%Z))))
     = is_in_data store3.
Proof.
  apply (write_keeps_arrays_full_size store3 "ci" (PSeq (int_seq [1; 2]%Z))
           (fst (__setitem__ store3 "ci" (PSeq (int_seq [1; 2]%Z)))) Done).
  - intros k a Hk. destruct (decide (k = "iq")) as [->|Hne].
    + vm_compute in Hk. injection Hk as <-. reflexivity.
    + unfold store3 in Hk. cbn [dict] in Hk.
      rewrite lookup_singleton_ne in Hk by congruence. discriminate.
  - vm_compute. reflexivity.
Defined.

Lemma write_leaves_other_reads_witness :
  __getitem__ (fst (__setitem__ store3 "ci" (PSeq (int_seq [1; 2]%Z)))) "iq"
  = __getitem__ store3 "iq".
Proof.
  apply (write_leaves_other_reads store3 "ci" "iq" (PSeq (int_seq [1; 2]%Z))
           (fst (__setitem__ store3 "ci" (PSeq (int_seq [1; 2]%Z)))) Done).
  - vm_compute. reflexivity.
  - discriminate.
Defined.

(** The list [1, 2.5] written to a new key is read back as [1, 2]. *)
Lemma read_returns_converted_values_witness :
  exists t,
    value_type (PSeq [SInt 1; SFloat (5 # 2)]) = Ok t
    /\ __getitem__ (fst (__setitem__ store2 "iq" (PSeq [SInt 1; SFloat (5 # 2)]))) "iq"
       = Ok (if Nat.eqb (length (entries (PSeq [SInt 1; SFloat (5 # 2)])))
                        (length (id store2))
             then map (cast t) (entries (PSeq [SInt 1; SFloat (5 # 2)]))
             else replicate (length (id store2))
                    (cast t (hd (SInt 0) (entries (PSeq [SInt 1; SFloat (5 # 2)]))))).
Proof.
  apply (read_returns_converted_values store2 "iq" (PSeq [SInt 1; SFloat (5 # 2)])).
  - reflexivity.
  - intros a Ha. vm_compute in Ha. discriminate.
  - vm_compute. reflexivity.
Defined.


Lemma later_write_wins_witness :
  exists s2',
    __setitem__ store5 "iq" (PSeq (int_seq [5; 6; 7; 8]%Z)) = (s2', Done)
    /\ __getitem__
         (fst (__setitem__
                 (fst (__setitem__ store5 "iq" (PSeq [SFloat (1 # 2)])))
                 "iq" (PSeq (int_seq [5; 6; 7; 8]%Z)))) "iq"
       = __getitem__ s2' "iq".
Proof.
  apply (later_write_wins store5 "iq" (PSeq [SFloat (1 # 2)])
           (PSeq (int_seq [5; 6; 7; 8]%Z))
           (fst (__setitem__ store5 "iq" (PSeq [SFloat (1 # 2)]))) Done).
  - reflexivity.
  - intros k a Hk. vm_compute in Hk. discriminate.
  - vm_compute. reflexivity.
  - vm_compute. reflexivity.
Defined.
End StoreMoreExamples.

(** ** More on the header and the column resolver *)

Section HeaderMore.
Import Ang.





Lemma to_uint_nonnil (n : nat) : Nat.to_uint n <> Decimal.Nil.
Proof.
  rewrite <- (DecimalNat.Unsigned.of_to n), DecimalNat.Unsigned.to_of.
  apply DecimalFacts.unorm_nonnil.
Qed.

(** [str] of a natural number determines the number. *)
Lemma of_nat_inj (a b : nat) : Str.of_nat a = Str.of_nat b -> a = b.
Proof.
  unfold Str.of_nat. intros Heq.
  apply DecimalNat.Unsigned.to_uint_inj.
  pose proof (NilZero.usu _ (to_uint_nonnil a)) as Ha.
  pose proof (NilZero.usu _ (to_uint_nonnil b)) as Hb.
  rewrite Heq in Ha. congruence.
Qed.

Lemma extra_columns_nodup (n : nat) : NoDup (extra_columns n).
Proof.
  unfold extra_columns. apply NoDup_fmap_2_strong; [|apply NoDup_seq].
  intros a b _ _ Heq. injection Heq as Heq. apply of_nat_inj in Heq. lia.
Qed.

Lemma vendor_columns_nodup (header : list string) (n : nat) :
  NoDup (snd (_get_vendor_columns header n)).
Proof.
  unfold _get_vendor_columns.
  destruct (negb (n =? length (column_names (detect_vendor header)))).
  - change (length (column_names unknown)) with 8.
    destruct (Nat.ltb 8 n); cbn [snd].
    + apply NoDup_app. split; [|split; [|apply extra_columns_nodup]].
      * unfold column_names. repeat (constructor; [not_among|]). constructor.
      * intros name Hin Hex. unfold extra_columns in Hex.
        apply list_elem_of_fmap in Hex as (i & -> & _).
        repeat (apply elem_of_cons in Hin as [Hin|Hin]; [try discriminate Hin|]).
        -- injection Hin as Hin.
           change "1" with (Str.of_nat 1) in Hin. apply of_nat_inj in Hin. lia.
        -- injection Hin as Hin.
           change "2" with (Str.of_nat 2) in Hin. apply of_nat_inj in Hin. lia.
        -- now apply elem_of_nil in Hin.
    + unfold column_names. repeat (constructor; [not_among|]). constructor.
  - cbn [snd]. destruct (detect_vendor header); unfold column_names;
      repeat (constructor; [not_among|]); constructor.
Qed.

(** X11.  No name occurs twice in the list the resolver returns, whatever the
    header and the column count: no column of the file can take the place
    of another one. *)
Theorem column_names_distinct (header : list string) (n_cols_file : nat) :
  NoDup (snd (_get_vendor_columns header n_cols_file)).
Proof. apply vendor_columns_nodup. Qed.

Lemma vendor_columns_places (header : list string) (n : nat) :
  take 5 (snd (_get_vendor_columns header n))
  = ["euler1"; "euler2"; "euler3"; "x"; "y"]
  /\ snd (_get_vendor_columns header n) !! 7 = Some "phase_id".
Proof.
  unfold _get_vendor_columns.
  destruct (negb (n =? length (column_names (detect_vendor header)))).
  - change (length (column_names unknown)) with 8.
    destruct (Nat.ltb 8 n); split; reflexivity.
  - destruct (detect_vendor header); split; reflexivity.
Qed.

(** X12.  Whatever the header and the column count, the list the resolver
    returns starts with euler1, euler2, euler3, x, y and has phase_id as
    its eighth name. *)
Theorem column_names_fixed_places (header : list string) (n_cols_file : nat) :
  take 5 (snd (_get_vendor_columns header n_cols_file))
  = ["euler1"; "euler2"; "euler3"; "x"; "y"]
  /\ snd (_get_vendor_columns header n_cols_file) !! 7 = Some "phase_id".
Proof. apply vendor_columns_places. Qed.

(** X13.  For a file with at least eight columns the resolver returns exactly
    one name per column, whether the vendor's schema fits or the fallback
    is used. *)
Theorem one_name_per_column (header : list string) (n_cols_file : nat) :
  8 <= n_cols_file ->
  length (snd (_get_vendor_columns header n_cols_file)) = n_cols_file.
Proof.
  intros Hn.
  destruct (_get_vendor_columns header n_cols_file) as [v names] eqn:Ev.
  exact (vendor_columns_length _ _ _ _ Ev Hn).
Qed.

Lemma one_name_per_column_witness :
  length (snd (_get_vendor_columns ["# ACOM"] 11)) = 11.
Proof. apply (one_name_per_column ["# ACOM"] 11). lia. Defined.
End HeaderMore.

(** ** More on the reader *)

Section ReaderMore.
Import Numpy Ang.
Context {F : Type} `{Float64 F}.
Implicit Types (d : data_dict F) (file_data : table F).




(** With names that are all different, every name gets the column of the
    file at its own position. *)
Lemma store_columns_lookup file_data (names : list string) d :
  NoDup names ->
  for_each (store_column file_data) (imap pair names) empty_data_dict = Ok d ->
  forall (j : nat) (K : string), names !! j = Some K ->
    exists col,
      column file_data j = Ok col
      /\ (is_Some (entries (F := F) empty_data_dict !! K) ->
          entries d !! K = Some (Some col))
      /\ (entries (F := F) empty_data_dict !! K = None ->
          prop d !! K = Some col).
Proof.
  intros Hnd Hloop j K Hj.
  pose proof (take_drop_middle _ _ _ Hj) as Hsplit.
  rewrite <- Hsplit in Hnd, Hloop.
  apply NoDup_app in Hnd as (_ & Hleft & Hright).
  apply NoDup_cons in Hright as [Hright _].
  destruct (store_columns_at file_data (take j names) (drop (S j) names) K
              empty_data_dict d) as (col & Hcol & He & Hp).
  - intros Hin. apply (Hleft K Hin). left.
  - exact Hright.
  - exact Hloop.
  - exists col. rewrite length_take in Hcol.
    apply lookup_lt_Some in Hj.
    rewrite Nat.min_l in Hcol by lia. auto.
Qed.

Lemma array_entry_ok d (name : string) (a : list F) :
  array_entry d name = Ok a -> entries d !! name = Some (Some a).
Proof.
  unfold array_entry. destruct (entries d !! name) as [[b|]|]; try discriminate.
  now intros [= <-].
Qed.

Lemma mark_not_indexed_frame d d' :
  mark_not_indexed d = Ok d' ->
  prop d' = prop d
  /\ forall K : string, K <> "phase_id" -> entries d' !! K = entries d !! K.
Proof.
  unfold mark_not_indexed.
  destruct (array_entry d "phase_id"); cbn [rbind]; [|discriminate].
  destruct (prop_entry d "ci"); cbn [rbind]; [|discriminate].
  destruct (setitem_ids _ _ _); cbn [rbind]; [|discriminate].
  intros [= <-]. cbn [prop entries]. split; [reflexivity|].
  intros K HK. apply lookup_insert_ne. congruence.
Qed.

(** The pieces of a dataset the reader returns, in terms of the
    dictionary the loop over the columns has filled. *)
Lemma reader_result (file : list string) file_data (cm : crystal_map_args F) :
  file_reader file file_data = Ok cm ->
  exists d1 e1 e2 e3,
    for_each (store_column file_data)
      (imap pair (snd (_get_vendor_columns (_get_header file) (n_cols file_data))))
      empty_data_dict = Ok d1
    /\ properties cm = prop d1
    /\ x cm = default None (entries d1 !! "x")
    /\ y cm = default None (entries d1 !! "y")
    /\ entries d1 !! "euler1" = Some (Some e1)
    /\ entries d1 !! "euler2" = Some (Some e2)
    /\ entries d1 !! "euler3" = Some (Some e3)
    /\ rotations cm = column_stack3 e1 e2 e3
    /\ scan_unit cm
       = (let v := fst (_get_vendor_columns (_get_header file) (n_cols file_data)) in
          if vendor_eqb v tsl || vendor_eqb v emsoft then "um" else "nm").
Proof.
  unfold file_reader.
  destruct (_get_phases_from_header (_get_header file))
    as [[[[phase_ids phase_names] symmetries] lattice_constants]|e];
    cbn [rbind]; [|discriminate].
  destruct (_get_vendor_columns (_get_header file) (n_cols file_data))
    as [v names]. cbn [fst snd].
  destruct (for_each (store_column file_data) (imap pair names) empty_data_dict)
    as [d1|e]; cbn [rbind]; [|discriminate].
  destruct (if vendor_eqb v tsl then mark_not_indexed d1 else Ok d1)
    as [d2|e] eqn:Ed2; cbn [rbind]; [|discriminate].
  assert (Hd2 : prop d2 = prop d1
                /\ forall K : string, K <> "phase_id" ->
                     entries d2 !! K = entries d1 !! K).
  { destruct (vendor_eqb v tsl).
    - now apply mark_not_indexed_frame.
    - injection Ed2 as <-. auto. }
  destruct Hd2 as [Hp He].
  destruct (array_entry d2 "euler1") as [e1|e] eqn:E1; cbn [rbind]; [|discriminate].
  destruct (array_entry d2 "euler2") as [e2|e] eqn:E2; cbn [rbind]; [|discriminate].
  destruct (array_entry d2 "euler3") as [e3|e] eqn:E3; cbn [rbind]; [|discriminate].
  intros [= <-]. cbn [properties x y rotations scan_unit].
  apply array_entry_ok in E1, E2, E3.
  rewrite He in E1, E2, E3 by discriminate.
  exists d1, e1, e2, e3. rewrite !He by discriminate.
  repeat split; auto.
Qed.

(** X16.  The Euler angles handed on are the first three columns of the file,
    x the fourth and y the fifth, for every vendor and for the fallback
    schema. *)
Theorem reader_takes_first_columns (file : list string) file_data
  (cm : crystal_map_args F) :
  file_reader file file_data = Ok cm ->
  exists c0 c1 c2 c3 c4,
    column file_data 0 = Ok c0 /\ column file_data 1 = Ok c1
    /\ column file_data 2 = Ok c2 /\ column file_data 3 = Ok c3
    /\ column file_data 4 = Ok c4
    /\ rotations cm = column_stack3 c0 c1 c2
    /\ x cm = Some c3 /\ y cm = Some c4.
Proof.
  intros Hread.
  destruct (reader_result _ _ _ Hread)
    as (d1 & e1 & e2 & e3 & Hloop & _ & Hx & Hy & H1 & H2 & H3 & Hrot & _).
  set (names := snd (_get_vendor_columns (_get_header file) (n_cols file_data)))
    in *.
  pose proof (vendor_columns_nodup (_get_header file) (n_cols file_data)) as Hnd.
  destruct (vendor_columns_places (_get_header file) (n_cols file_data))
    as [Hfive _]. fold names in Hnd, Hfive.
  assert (Hat : forall j K, ["euler1"; "euler2"; "euler3"; "x"; "y"] !! j = Some K ->
            exists col, column file_data j = Ok col
                        /\ entries d1 !! K = Some (Some col)).
  { intros j K Hj.
    assert (HK : K ∈ ["euler1"; "euler2"; "euler3"; "x"; "y"])
      by (eapply list_elem_of_lookup_2, Hj).
    rewrite <- Hfive in Hj. apply lookup_take_Some in Hj as [Hj _].
    destruct (store_columns_lookup file_data names d1 Hnd Hloop j K Hj)
      as (col & Hcol & He & _).
    exists col. split; [assumption|]. apply He.
    repeat (apply elem_of_cons in HK as [->|HK]); try (eexists; reflexivity).
    now apply elem_of_nil in HK. }
  destruct (Hat 0 "euler1" eq_refl) as (c0 & Hc0 & He0).
  destruct (Hat 1 "euler2" eq_refl) as (c1 & Hc1 & He1).
  destruct (Hat 2 "euler3" eq_refl) as (c2 & Hc2 & He2).
  destruct (Hat 3 "x" eq_refl) as (c3 & Hc3 & He3).
  destruct (Hat 4 "y" eq_refl) as (c4 & Hc4 & He4).
  exists c0, c1, c2, c3, c4. repeat (split; [assumption|]).
  rewrite Hrot, Hx, Hy, He3, He4. split; [|now split].
  congruence.
Qed.

Lemma empty_entries (K : string) :
  entries (F := F) empty_data_dict !! K = None
  <-> K ∉ ["euler1"; "euler2"; "euler3"; "x"; "y"; "phase_id"].
Proof.
  unfold empty_data_dict. cbn [entries].
  rewrite <- not_elem_of_list_to_map. reflexivity.
Qed.

(** Where an entry of "prop" comes from. *)
Lemma store_columns_origin file_data (l : list (nat * string)) d0 d :
  for_each (store_column file_data) l d0 = Ok d ->
  (forall K : string, entries d !! K = None <-> entries d0 !! K = None)
  /\ forall (K : string) (col : list F), prop d !! K = Some col ->
       prop d0 !! K = Some col
       \/ exists j : nat,
            (j, K) ∈ l /\ column file_data j = Ok col
            /\ entries d0 !! K = None.
Proof.
  apply (for_each_invariant
           (fun d =>
              (forall K : string, entries d !! K = None <-> entries d0 !! K = None)
              /\ forall (K : string) (col : list F), prop d !! K = Some col ->
                   prop d0 !! K = Some col
                   \/ exists j : nat,
                        (j, K) ∈ l /\ column file_data j = Ok col
                        /\ entries d0 !! K = None)).
  - intros [j name] s s' Hin Hstep [Hent Hprop]. unfold store_column in Hstep.
    destruct (column file_data j) as [col'|e] eqn:Ecol; cbn [rbind] in Hstep;
      [|discriminate].
    destruct (entries s !! name) as [o|] eqn:Ename; injection Hstep as <-;
      cbn [entries prop].
    + split; [|exact Hprop]. intros K. rewrite <- Hent.
      destruct (decide (name = K)) as [->|Hne].
      * rewrite lookup_insert_eq, Ename. split; discriminate.
      * now rewrite lookup_insert_ne.
    + split; [exact Hent|]. intros K col.
      destruct (decide (name = K)) as [->|Hne].
      * rewrite lookup_insert_eq. intros [= <-]. right. exists j.
        split; [assumption|]. split; [assumption|]. now apply Hent.
      * rewrite lookup_insert_ne by assumption. apply Hprop.
  - split; [reflexivity|]. auto.
Qed.

(** X17.  The properties handed on are exactly the columns whose names are not
    among the six dedicated ones, each under its name: nothing else gets
    into the properties and no such column is left out. *)
Theorem reader_properties (file : list string) file_data
  (cm : crystal_map_args F) :
  file_reader file file_data = Ok cm ->
  forall (name : string) (col : list F),
    properties cm !! name = Some col
    <-> exists j : nat,
          snd (_get_vendor_columns (_get_header file) (n_cols file_data)) !! j
          = Some name
          /\ (name ∉ ["euler1"; "euler2"; "euler3"; "x"; "y"; "phase_id"])
          /\ column file_data j = Ok col.
Proof.
  intros Hread name col.
  destruct (reader_result _ _ _ Hread) as (d1 & _ & _ & _ & Hloop & Hp & _).
  set (names := snd (_get_vendor_columns (_get_header file) (n_cols file_data)))
    in *.
  pose proof (vendor_columns_nodup (_get_header file) (n_cols file_data)) as Hnd.
  fold names in Hnd. rewrite Hp. split.
  - intros Hcol.
    destruct (store_columns_origin _ _ _ _ Hloop) as [_ Horigin].
    destruct (Horigin name col Hcol) as [Hc|(j & Hin & Hj & Hnone)].
    + cbn [empty_data_dict prop] in Hc. now rewrite lookup_empty in Hc.
    + exists j. apply elem_of_lookup_imap in Hin as (i & y & [= -> ->] & Hy).
      split; [assumption|]. split; [now apply empty_entries | assumption].
  - intros (j & Hj & Hnot & Hcol).
    destruct (store_columns_lookup file_data names d1 Hnd Hloop j name Hj)
      as (col' & Hcol' & _ & Hprop).
    rewrite Hprop by now apply empty_entries. congruence.
Qed.

(** X18.  The scan unit is "um" only when the header is one of the default
    vendor or of EMsoft and the file has the number of columns of that
    vendor; with any other column count, or an ASTAR header, it is
    "nm". *)
Theorem reader_scan_unit (file : list string) file_data
  (cm : crystal_map_args F) :
  file_reader file file_data = Ok cm ->
  scan_unit cm
  = if (n_cols file_data
        =? length (column_names (detect_vendor (_get_header file))))
       && (vendor_eqb (detect_vendor (_get_header file)) tsl
           || vendor_eqb (detect_vendor (_get_header file)) emsoft)
    then "um" else "nm".
Proof.
  intros Hread.
  destruct (reader_result _ _ _ Hread)
    as (d1 & e1 & e2 & e3 & _ & _ & _ & _ & _ & _ & _ & _ & ->).
  unfold _get_vendor_columns.
  destruct (n_cols file_data
            =? length (column_names (detect_vendor (_get_header file))));
    cbn [negb andb].
  - reflexivity.
  - change (length (column_names unknown)) with 8.
    destruct (Nat.ltb 8 (n_cols file_data)); reflexivity.
Qed.
End ReaderMore.

Section ReaderMoreExamples.
Import Ang Sample.



Lemma reader_takes_first_columns_witness :
  exists cm,
    file_reader tsl_file tsl_table = Ok cm
    /\ exists c0 c1 c2 c3 c4,
      column tsl_table 0 = Ok c0 /\ column tsl_table 1 = Ok c1
      /\ column tsl_table 2 = Ok c2 /\ column tsl_table 3 = Ok c3
      /\ column tsl_table 4 = Ok c4
      /\ rotations cm = column_stack3 c0 c1 c2
      /\ x cm = Some c3 /\ y cm = Some c4.
Proof.
  destruct (file_reader tsl_file tsl_table) as [cm|e] eqn:E;
    [|vm_compute in E; discriminate E].
  exists cm. split; [reflexivity|].
  exact (reader_takes_first_columns tsl_file tsl_table cm E).
Defined.

Lemma reader_properties_witness :
  exists cm,
    file_reader tsl_file tsl_table = Ok cm
    /\ forall (name : string) (col : list Q),
      properties cm !! name = Some col
      <-> exists j : nat,
            snd (_get_vendor_columns (_get_header tsl_file) (n_cols tsl_table)) !! j
            = Some name
            /\ (name ∉ ["euler1"; "euler2"; "euler3"; "x"; "y"; "phase_id"])
            /\ column tsl_table j = Ok col.
Proof.
  destruct (file_reader tsl_file tsl_table) as [cm|e] eqn:E;
    [|vm_compute in E; discriminate E].
  exists cm. split; [reflexivity|].
  exact (reader_properties tsl_file tsl_table cm E).
Defined.

(** A header of the default vendor with ten columns: the unit is "nm". *)
Example ten_column_tsl_file_is_nm :
  scan_unit <$> (match file_reader tsl_file
                         {| n_cols := 10;
                            rows := [[0; 0; 0; 0; 0; 1; 1; 3; 0; 0]%Q] |} with
                 | Ok cm => Some cm
                 | Raise _ => None
                 end) = Some "nm".
Proof. vm_compute. reflexivity. Qed.

Lemma reader_scan_unit_witness :
  exists cm,
    file_reader tsl_file tsl_table = Ok cm
    /\ scan_unit cm
       = if (n_cols tsl_table
             =? length (column_names (detect_vendor (_get_header tsl_file))))
            && (vendor_eqb (detect_vendor (_get_header tsl_file)) tsl
                || vendor_eqb (detect_vendor (_get_header tsl_file)) emsoft)
         then "um" else "nm".
Proof.
  destruct (file_reader tsl_file tsl_table) as [cm|e] eqn:E;
    [|vm_compute in E; discriminate E].
  exists cm. split; [reflexivity|].
  exact (reader_scan_unit tsl_file tsl_table cm E).
Defined.
End ReaderMoreExamples.

(** ** More on the phase metadata *)

Section RegexFacts.
Import Regex.

Lemma nullable_sound (r : re) : nullable r = true -> matches r "".
Proof.
  induction r as [| |p|r1 IH1 r2 IH2|r1 IH1 r2 IH2|r IH]; simpl; intros Hn;
    try discriminate.
  - constructor.
  - apply andb_true_iff in Hn as [H1 H2].
    change "" with ("" +:+ ""). constructor; auto.
  - apply orb_true_iff in Hn as [H1|H2];
      [apply matches_alt_l | apply matches_alt_r]; auto.
  - constructor.
Qed.

Lemma deriv_sound (c : ascii) (r : re) : forall s : string,
  matches (deriv c r) s -> matches r (String c s).
Proof.
  induction r as [| |p|r1 IH1 r2 IH2|r1 IH1 r2 IH2|r IH]; simpl; intros s Hm.
  - inversion Hm.
  - inversion Hm.
  - destruct (p c) eqn:Hp; inversion Hm; subst. now constructor.
  - assert (Hcat : forall s, matches (Cat (deriv c r1) r2) s ->
              matches (Cat r1 r2) (String c s)).
    { intros s' Hs'. inversion Hs' as [| |? ? s1 s2 H1 H2| | | |]; subst.
      change (String c (s1 +:+ s2)) with (String c s1 +:+ s2).
      constructor; auto. }
    destruct (nullable r1) eqn:Hn1; [|now apply Hcat].
    inversion Hm; subst; [now apply Hcat|].
    change (String c s) with ("" +:+ String c s).
    constructor; [now apply nullable_sound | auto].
  - inversion Hm; subst; [apply matches_alt_l | apply matches_alt_r]; auto.
  - inversion Hm as [| |? ? s1 s2 H1 H2| | | |]; subst.
    change (String c (s1 +:+ s2)) with (String c s1 +:+ s2).
    constructor; auto.
Qed.

Lemma matches_prefix_sound (s : string) : forall r : re,
  matches_prefix r s = true ->
  exists s1 s2, s = s1 +:+ s2 /\ matches r s1.
Proof.
  induction s as [|c s IH]; intros r; cbn [matches_prefix]; intros Hm;
    apply orb_true_iff in Hm as [Hn|Hm]; try discriminate.
  - exists "", "". split; [reflexivity | now apply nullable_sound].
  - exists "", (String c s). split; [reflexivity | now apply nullable_sound].
  - destruct (IH _ Hm) as (s1 & s2 & -> & H1).
    exists (String c s1), s2. split; [reflexivity | now apply deriv_sound].
Qed.

(** What [search] finds is a matched substring. *)
Lemma search_sound (s : string) (r : re) :
  search r s = true ->
  exists s0 s1 s2, s = s0 +:+ s1 +:+ s2 /\ matches r s1.
Proof.
  induction s as [|c s IH]; cbn [search]; intros Hs;
    apply orb_true_iff in Hs as [Hm|Hs]; try discriminate.
  - destruct (matches_prefix_sound _ _ Hm) as (s1 & s2 & Heq & H1).
    exists "", s1, s2. auto.
  - destruct (matches_prefix_sound _ _ Hm) as (s1 & s2 & Heq & H1).
    exists "", s1, s2. auto.
  - destruct (IH Hs) as (s0 & s1 & s2 & -> & H1).
    exists (String c s0), s1, s2. auto.
Qed.

Lemma matches_lit (l s : string) : matches (Lit l) s -> s = l.
Proof.
  revert s. induction l as [|c l IH]; intros s Hm; simpl in Hm.
  - now inversion Hm.
  - inversion Hm as [| |? ? s1 s2 H1 H2| | | |]; subst.
    inversion H1 as [|? c' Hc| | | | |]; subst.
    apply Ascii.eqb_eq in Hc. subst c'. simpl. f_equal. now apply IH.
Qed.

Lemma prefix_append (l s : string) : String.prefix l (l +:+ s) = true.
Proof.
  induction l as [|c l IH]; [now destruct s|].
  change (match ascii_dec c c with
          | left _ => String.prefix l (l +:+ s)
          | right _ => false
          end = true).
  destruct (ascii_dec c c); [exact IH | congruence].
Qed.

Lemma contains_append (l s0 s : string) : Str.contains l (s0 +:+ l +:+ s) = true.
Proof.
  induction s0 as [|c s0 IH].
  - change ("" +:+ l +:+ s) with (l +:+ s).
    destruct (l +:+ s) eqn:E; cbn [Str.contains]; rewrite <- E, prefix_append;
      reflexivity.
  - change (String c s0 +:+ l +:+ s) with (String c (s0 +:+ l +:+ s)).
    cbn [Str.contains]. rewrite IH. apply orb_true_r.
Qed.

(** A pattern that starts with a literal is only found in a line that
    contains the literal. *)
Lemma search_literal (l : string) (r : re) (s : string) :
  search (Cat (Lit l) r) s = true -> Str.contains l s = true.
Proof.
  intros Hs. destruct (search_sound _ _ Hs) as (s0 & s1 & s2 & -> & Hm).
  inversion Hm as [| |? ? t1 t2 H1 H2| | | |]; subst.
  apply matches_lit in H1. subst t1.
  rewrite append_assoc. apply contains_append.
Qed.
End RegexFacts.

Section PhaseMore.
Import Ang.
Context {F : Type} `{Float64 F}.
Implicit Types (p : phases_dict F) (header : list string).

Lemma scan_line_unmarked (line : string) p :
  Forall (fun marker => Str.contains marker line = false) phase_markers ->
  scan_line line p = Ok p.
Proof.
  unfold phase_markers. intros Hall.
  repeat (apply Forall_cons in Hall as [? Hall]).
  assert (Hno : forall (l : string) (r : Regex.re),
            Str.contains l line = false ->
            Regex.search (Regex.Cat (Regex.Lit l) r) line = false).
  { intros l r Hl. destruct (Regex.search _ line) eqn:Hs; [|reflexivity].
    apply search_literal in Hs. congruence. }
  unfold scan_line, regexps, labelled. cbn [for_each].
  rewrite !Hno by assumption. reflexivity.
Qed.

(** X19.  A header line that contains none of the five markers "# Phase",
    "# MaterialName", "# Formula", "# Symmetry", "# LatticeConstants"
    contributes nothing: the result is the one of the header without that
    line. *)
Theorem unmarked_line_is_skipped (before after : list string) (line : string) :
  Forall (fun marker => Str.contains marker line = false) phase_markers ->
  _get_phases_from_header (F := F) (before ++ line :: after)
  = _get_phases_from_header (before ++ after).
Proof.
  intros Hline. unfold _get_phases_from_header, collect_phases.
  rewrite !for_each_app. cbn [for_each].
  destruct (for_each scan_line before no_phases) as [p1|e]; cbn [rbind];
    [|reflexivity].
  now rewrite (scan_line_unmarked line p1 Hline).
Qed.

Lemma complete_ids_length (found : list Z) (n : nat) ids :
  complete_ids found n = Ok ids -> length ids = Nat.max (length found) n.
Proof.
  unfold complete_ids. destruct found as [|x found].
  - cbn [length Nat.eqb app]. intros [= <-].
    rewrite range_length. lia.
  - cbn [length Nat.eqb negb].
    destruct (Z.of_nat n - Z.of_nat (S (length found)) >? 0)%Z eqn:Hgt;
      cbn [andb].
    + cbn [max_int rbind]. intros [= <-].
      rewrite Z.gtb_ltb in Hgt. apply Z.ltb_lt in Hgt.
      change (length (x :: found ++ range (fold_left Z.max found x + 1)
                        (fold_left Z.max found x + 1
                         + (Z.of_nat n - Z.of_nat (S (length found)))))
              = Nat.max (S (length found)) n).
      cbn [length]. rewrite length_app, range_length. lia.
    + intros [= <-]. cbn [length].
      rewrite Z.gtb_ltb in Hgt. apply Z.ltb_ge in Hgt. lia.
Qed.

(** X20.  What the function returns, in terms of the lists collected from the
    header: the names are the material names (never the formulas), the
    point groups and lattice constants are the collected ones, and there
    are as many ids as the larger of the number of "# Phase" lines and
    the number of "# MaterialName" lines, so that every name has an id. *)
Theorem phases_result header (ids : list Z) (names point_groups : list string)
  (lattice_constants : list (list F)) :
  _get_phases_from_header header
  = Ok (ids, names, point_groups, lattice_constants) ->
  exists p,
    collect_phases header = Ok p
    /\ names = phases_name p
    /\ point_groups = phases_point_group p
    /\ lattice_constants = phases_lattice_constants p
    /\ length ids = Nat.max (length (phases_id p)) (length (phases_name p))
    /\ length names <= length ids.
Proof.
  unfold _get_phases_from_header.
  destruct (collect_phases header) as [p|e] eqn:Ep; cbn [rbind]; [|discriminate].
  destruct (traverse Str.to_int (phases_id p)) as [found|e] eqn:Ef;
    cbn [rbind]; [|discriminate].
  destruct (complete_ids found (length (phases_name p))) as [ids'|e] eqn:Ec;
    cbn [rbind]; [|discriminate].
  intros [= <- <- <- <-]. exists p.
  assert (Hlen : length found = length (phases_id p)).
  { clear Ec. revert found Ef.
    induction (phases_id p) as [|t ts IH]; intros found; cbn [traverse].
    - now intros [= <-].
    - destruct (Str.to_int t); cbn [rbind]; [|discriminate].
      destruct (traverse Str.to_int ts) as [zs|]; cbn [rbind]; [|discriminate].
      intros [= <-]. simpl. f_equal. now apply IH. }
  apply complete_ids_length in Ec. rewrite Hlen in Ec.
  split; [reflexivity|].
  split; [exact (display_names_are_material_names header p Ep)|].
  repeat (split; [reflexivity || assumption|]).
  rewrite (display_names_are_material_names header p Ep). lia.
Qed.

Lemma range_nodup (a b : Z) : NoDup (range a b).
Proof.
  unfold range. apply NoDup_fmap_2_strong; [|apply NoDup_seq].
  intros i j _ _ Heq. lia.
Qed.

Lemma range_elem (a b x : Z) : x ∈ range a b -> (a <= x)%Z.
Proof.
  unfold range. intros Hin. apply list_elem_of_fmap in Hin as (i & -> & _). lia.
Qed.

(** X21.  If the ids found in the header are pairwise different, so are the
    ids returned: the ids added for the phases without one lie above every
    id found. *)
Theorem phase_ids_distinct header p (found : list Z) (ids : list Z)
  (names point_groups : list string) (lattice_constants : list (list F)) :
  collect_phases header = Ok p ->
  traverse Str.to_int (phases_id p) = Ok found ->
  NoDup found ->
  _get_phases_from_header header
  = Ok (ids, names, point_groups, lattice_constants) ->
  NoDup ids.
Proof.
  intros Hp Hfound Hnd. unfold _get_phases_from_header.
  rewrite Hp. cbn [rbind]. rewrite Hfound. cbn [rbind].
  destruct (complete_ids found (length (phases_name p))) as [ids'|e] eqn:Ec;
    cbn [rbind]; [|discriminate].
  intros [= <- _ _ _]. unfold complete_ids in Ec.
  destruct found as [|x found'].
  - cbn [length Nat.eqb app] in Ec. injection Ec as <-. apply range_nodup.
  - cbn [length Nat.eqb negb] in Ec. rewrite andb_true_r in Ec.
    destruct (Z.of_nat (length (phases_name p))
              - Z.of_nat (S (length found')) >? 0)%Z.
    + destruct (max_int_spec (x :: found')) as (m & Hm & _ & Hub);
        [discriminate|].
      rewrite Hm in Ec. cbn [rbind] in Ec. injection Ec as <-.
      apply (NoDup_app (x :: found')).
      split; [assumption|]. split; [|apply range_nodup].
      intros y Hy Hr. apply range_elem in Hr. specialize (Hub y Hy). lia.
    + now injection Ec as <-.
Qed.
End PhaseMore.

Section PhaseMoreExamples.
Import Ang.

Lemma unmarked_line_is_skipped_witness :
  _get_phases_from_header (F := Q)
    (["# Phase 2"] ++ "# GRID: SqrGrid" :: ["# MaterialName A"])
  = _get_phases_from_header (["# Phase 2"] ++ ["# MaterialName A"]).
Proof.
  apply (unmarked_line_is_skipped (F := Q) ["# Phase 2"] ["# MaterialName A"]
           "# GRID: SqrGrid").
  repeat constructor.
Defined.

Lemma phases_result_witness :
  exists p : phases_dict Q,
    collect_phases
      ["# Phase 2"; "# MaterialName A"; "# Formula X"; "# MaterialName B"]
    = Ok p
    /\ ["A"; "B"] = phases_name p
    /\ [] = phases_point_group p
    /\ [] = phases_lattice_constants p
    /\ length [2; 3]%Z = Nat.max (length (phases_id p)) (length (phases_name p))
    /\ length ["A"; "B"] <= length [2; 3]%Z.
Proof.
  apply (phases_result (F := Q)
           ["# Phase 2"; "# MaterialName A"; "# Formula X"; "# MaterialName B"]
           [2; 3]%Z ["A"; "B"] [] []).
  reflexivity.
Defined.

Lemma phase_ids_distinct_witness : NoDup [2; 3; 4]%Z.
Proof.
  apply (phase_ids_distinct (F := Q)
           ["# Phase 2"; "# MaterialName A"; "# MaterialName B"; "# MaterialName C"]
           {| phases_name := ["A"; "B"; "C"]; phases_formula := [];
              phases_point_group := []; phases_lattice_constants := [];
              phases_id := ["2"] |}
           [2%Z] [2; 3; 4]%Z ["A"; "B"; "C"] [] []).
  - reflexivity.
  - reflexivity.
  - repeat constructor. intros Hin. now apply elem_of_nil in Hin.
  - reflexivity.
Defined.
End PhaseMoreExamples.

(** ** More on the writer *)

Section WriterMore.
Import Ang.
Context {F : Type} `{Float64 F}.
Variable version : string.
Implicit Types (crystal_map : CrystalMap F).

Lemma position_spec (k : string) (names : list string) :
  match position k names with
  | Some i => names !! i = Some k
  | None => k ∉ names
  end.
Proof.
  induction names as [|n names IH]; cbn [position].
  - apply not_elem_of_nil.
  - destruct (String.eqb_spec k n) as [->|Hne]; [reflexivity|].
    destruct (position k names) as [i|]; simpl.
    + exact IH.
    + apply not_elem_of_cons. now split.
Qed.

(** X22.  The search for an alias: the name it returns is one of the property
    names and, in lower case and without underscores, one of the aliases;
    it returns nothing only if no property name is an alias in that
    sense. *)
Theorem alias_search_spec (expected_prop_names prop_names : list string) :
  match find_prop_name expected_prop_names prop_names
          (map lower_no_underscore prop_names) with
  | Some name =>
      name ∈ prop_names /\ lower_no_underscore name ∈ expected_prop_names
  | None =>
      forall name, name ∈ prop_names ->
        lower_no_underscore name ∉ expected_prop_names
  end.
Proof.
  induction expected_prop_names as [|k rest IH]; cbn [find_prop_name].
  - intros name _. apply not_elem_of_nil.
  - pose proof (position_spec k (map lower_no_underscore prop_names)) as Hpos.
    destruct (position k (map lower_no_underscore prop_names)) as [i|].
    + rewrite list_lookup_fmap in Hpos.
      destruct (prop_names !! i) as [name|] eqn:Ei; [|discriminate].
      injection Hpos as Hk. split.
      * eapply list_elem_of_lookup_2, Ei.
      * rewrite Hk. left.
    + destruct (find_prop_name rest prop_names
                  (map lower_no_underscore prop_names)) as [name|].
      * destruct IH as [Hin Hal]. split; [assumption | now right].
      * intros name Hname Hal. apply elem_of_cons in Hal as [Hal|Hal].
        -- apply Hpos. rewrite <- Hal. now apply list_elem_of_fmap_2.
        -- exact (IH name Hname Hal).
Qed.

(** X23.  Where each of the four property columns comes from.  For the [j]-th
    column, with [wanted] the name given by the caller and [aliases] the
    [j]-th list of aliases: a given name decides, and the column is that
    property; without a given name the first property found by an alias
    is taken; with neither, the column is zero.  The values pass through
    float32. *)
Theorem property_column_source crystal_map (prop_names : list string)
  (p0 p1 p2 p3 : option string) (map_size decimals : nat)
  (prop_arrays : list (list F)) :
  _get_prop_arrays crystal_map prop_names [p0; p1; p2; p3] map_size decimals
  = Ok prop_arrays ->
  forall (j : nat) (wanted : option string) (aliases : list string),
    [p0; p1; p2; p3] !! j = Some wanted ->
    all_expected_prop_names !! j = Some aliases ->
    match wanted,
          find_prop_name aliases prop_names (map lower_no_underscore prop_names)
    with
    | Some name, _ | None, Some name =>
        exists data,
          get_map_data crystal_map name (Some decimals) (Some (f_of_Z 0))
          = Ok data
          /\ get_column j prop_arrays = map f_single data
    | None, None =>
        get_column j prop_arrays = replicate map_size (f_of_Z 0)
    end.
Proof.
  intros Harr j wanted aliases Hw Ha.
  destruct (prop_arrays_columns _ _ _ _ _ _ _ _ _ Harr) as (_ & _ & Hcols).
  destruct (Hcols j wanted aliases Hw Ha) as (prop & Hprop & Hcol).
  unfold _get_prop_array in Hprop.
  destruct wanted as [name|].
  - destruct (get_map_data crystal_map name _ _) as [data|e];
      cbn [rbind] in Hprop; [|discriminate].
    injection Hprop as <-. eauto.
  - destruct (find_prop_name aliases prop_names _) as [name|].
    + destruct (get_map_data crystal_map name _ _) as [data|e];
        cbn [rbind] in Hprop; [|discriminate].
      injection Hprop as <-. eauto.
    + injection Hprop as <-. exact Hcol.
Qed.

Lemma tile_length (a : list F) (n : nat) : length (tile a n) = n * length a.
Proof.
  unfold tile. induction n as [|n IH]; [reflexivity|].
  cbn [replicate concat]. rewrite length_app, IH. reflexivity.
Qed.

Lemma np_max_empty (a : list F) : length a = 0 -> np_max a = Raise ValueError.
Proof. destruct a; [reflexivity | discriminate]. Qed.

(** X24.  A map without points (no rows or no columns) cannot be written: the
    writer raises before [np.savetxt], so no file is created or
    changed. *)
Theorem empty_map_is_not_written (files : gmap string (saved F))
  (filename : string) crystal_map
  (image_quality_prop confidence_index_prop sem_signal_prop pattern_fit_prop
     : option string) (nrows ncols : nat) (dy dx : F) :
  _get_nrows_ncols_step_sizes crystal_map = Ok (nrows, ncols, dy, dx) ->
  nrows * ncols = 0 ->
  exists e,
    file_writer version files filename crystal_map image_quality_prop
      confidence_index_prop sem_signal_prop pattern_fit_prop
    = (files, Raised e).
Proof.
  intros Hgeo Hzero. unfold file_writer.
  assert (Hprep : exists e,
            prepare version crystal_map image_quality_prop confidence_index_prop
              sem_signal_prop pattern_fit_prop = Raise e).
  { unfold prepare.
    destruct (Nat.ltb 2 (ndim crystal_map)); [eauto|].
    destruct (_get_ang_header version crystal_map); cbn [rbind]; [|eauto].
    rewrite Hgeo. cbn [rbind].
    destruct (get_map_data crystal_map "rotations" _ _); cbn [rbind]; [|eauto].
    destruct (reshape3 _ _); cbn [rbind]; [|eauto].
    rewrite (np_max_empty (tile (arange_times ncols dx) nrows)).
    - cbn [rbind]. eauto.
    - rewrite tile_length. unfold arange_times.
      rewrite length_map, length_seq. exact Hzero. }
  destruct Hprep as [e ->]. eauto.
Qed.
End WriterMore.

Section WriterMoreExamples.
Import Ang Sample.

(** The confidence index named by the caller fills the first column. *)
Lemma property_column_source_witness :
  exists data,
    get_map_data (grid_map 2 [2; 2]) "ci" (Some 5) (Some (f_of_Z 0)) = Ok data
    /\ get_column 0
         [[1 # 2; 1 # 2; 0; 9]; [1 # 2; 1 # 2; 0; 9];
          [1 # 2; 1 # 2; 0; 9]; [1 # 2; 1 # 2; 0; 9]]%Q
       = map f_single data.
Proof.
  assert (Harr : _get_prop_arrays (grid_map 2 [2; 2]) ["iq"; "ci"; "fit"]
                   [Some "ci"; None; None; None] 4 5
                 = Ok [[1 # 2; 1 # 2; 0; 9]; [1 # 2; 1 # 2; 0; 9];
                       [1 # 2; 1 # 2; 0; 9]; [1 # 2; 1 # 2; 0; 9]]%Q)
    by (vm_compute; reflexivity).
  exact (property_column_source (grid_map 2 [2; 2]) ["iq"; "ci"; "fit"]
           (Some "ci") None None None 4 5 _ Harr
           0 (Some "ci") ["iq"; "image_quality"; "imagequality"]
           eq_refl eq_refl).
Defined.

Lemma empty_map_is_not_written_witness :
  exists e,
    file_writer "0.4" ∅ "out.ang" (grid_map 2 [0; 3]) None None None None
    = (∅, Raised e).
Proof.
  apply (empty_map_is_not_written "0.4" ∅ "out.ang" (grid_map 2 [0; 3])
           None None None None 0 3 1%Q 1%Q).
  - reflexivity.
  - reflexivity.
Defined.
End WriterMoreExamples.
